(** * xeez-pyutils: error taxonomy, response envelope and SQLAlchemy repository

    A shallow embedding of [pyutils/exceptions.py], [responses.py] and
    [xeez_pyutils/sqlalchemy_repository.py].

    - Python text is a [string]; each character stands for one code point
      below 256.
    - Python objects that reach [str()] and [repr()] are values of [pyval].
    - An exception instance is a class together with its [args] tuple.
    - The repository methods run in a state-and-exception monad over the
      state of the collaborators (session, model constructor, ORM objects)
      and record every call they make in a journal. *)

From Stdlib Require Import String Ascii ZArith List Bool Lia.
From Stdlib Require Import DecimalString.
Import ListNotations.

Local Open Scope string_scope.
Local Open Scope Z_scope.

(* ------------------------------------------------------------------ *)
(** ** Python values, [str()] and [repr()] *)

Module Py.

#[warnings="-register-all"]
Inductive pyval : Type :=
| PyNone
| PyBool (b : bool)
| PyInt (n : Z)
| PyStr (s : string)
| PyTuple (items : list pyval)
| PyObj (str_ repr_ : string).
(** [PyObj s r] is any other object, known by what [str()] and [repr()]
    return for it. *)

Definition hex_digit (n : nat) : ascii :=
  match n with
  | 0%nat => "0" | 1%nat => "1" | 2%nat => "2" | 3%nat => "3"
  | 4%nat => "4" | 5%nat => "5" | 6%nat => "6" | 7%nat => "7"
  | 8%nat => "8" | 9%nat => "9" | 10%nat => "a" | 11%nat => "b"
  | 12%nat => "c" | 13%nat => "d" | 14%nat => "e" | _ => "f"
  end%char.

Definition hex2 (c : ascii) : string :=
  let n := nat_of_ascii c in
  String (hex_digit (n / 16)) (String (hex_digit (n mod 16)) EmptyString).

Fixpoint contains (c : ascii) (s : string) : bool :=
  match s with
  | EmptyString => false
  | String d rest => Ascii.eqb c d || contains c rest
  end.

(** [str.isprintable] on the code points below 256. *)
Definition isprintable (c : ascii) : bool :=
  let n := nat_of_ascii c in
  ((32 <=? n) && (n <? 127) || (161 <=? n) && negb (n =? 173))%nat.

(** One character of [repr(str)], inside quotes [q]. *)
Definition repr_char (q c : ascii) : string :=
  if Ascii.eqb c q || Ascii.eqb c "\"%char then String "\" (String c EmptyString)
  else if Ascii.eqb c "009"%char then "\t"
  else if Ascii.eqb c "010"%char then "\n"
  else if Ascii.eqb c "013"%char then "\r"
  else if isprintable c then String c EmptyString
  else "\x" ++ hex2 c.

Fixpoint repr_chars (q : ascii) (s : string) : string :=
  match s with
  | EmptyString => EmptyString
  | String c rest => repr_char q c ++ repr_chars q rest
  end.

Definition dquote : ascii := "034"%char.

(** [repr] of a [str]: single quotes, unless the text has a single quote
    and no double quote. *)
Definition repr_quote (s : string) : ascii :=
  if contains "'"%char s && negb (contains dquote s)
  then dquote else "'"%char.

Definition str_repr (s : string) : string :=
  let q := repr_quote s in
  String q (repr_chars q s ++ String q EmptyString).

Definition int_repr (n : Z) : string := NilZero.string_of_int (Z.to_int n).

Definition tuple_repr (items : list string) : string :=
  match items with
  | [] => "()"
  | [x] => "(" ++ x ++ ",)"
  | _ => "(" ++ String.concat ", " items ++ ")"
  end.

Fixpoint repr (v : pyval) : string :=
  match v with
  | PyNone => "None"
  | PyBool true => "True"
  | PyBool false => "False"
  | PyInt n => int_repr n
  | PyStr s => str_repr s
  | PyTuple items => tuple_repr (List.map repr items)
  | PyObj _ r => r
  end.

Definition str (v : pyval) : string :=
  match v with
  | PyStr s => s
  | PyObj s _ => s
  | _ => repr v
  end.

(** Truth value of a [str]: the empty text is false. *)
Definition truthy_str (s : string) : bool :=
  match s with
  | EmptyString => false
  | String _ _ => true
  end.

End Py.
Import Py.

(* ------------------------------------------------------------------ *)
(** ** Exception classes and instances *)

(** The six classes of [exceptions.py]. *)
Inductive ErrorKind : Type :=
| BadValueError
| NotFoundError
| DuplicatedError
| InternalServerError
| DatabaseError
| DatabaseIntegrityError.

(** Every class an [except] clause of the repository can meet: the six
    kinds, the three classes the repository imports, and representatives
    of the rest.  [OperationalError] stands for the subclasses of
    [SQLAlchemyError] other than [IntegrityError]. *)
Inductive PyClass : Type :=
| Kind (k : ErrorKind)
| ValidationError
| IntegrityError
| SQLAlchemyError
| OperationalError
| ValueError
| TypeError
| AttributeError
| Exception_.

Coercion Kind : ErrorKind >-> PyClass.

Definition ErrorKind_eqb (a b : ErrorKind) : bool :=
  match a, b with
  | BadValueError, BadValueError
  | NotFoundError, NotFoundError
  | DuplicatedError, DuplicatedError
  | InternalServerError, InternalServerError
  | DatabaseError, DatabaseError
  | DatabaseIntegrityError, DatabaseIntegrityError => true
  | _, _ => false
  end.

Definition PyClass_eqb (a b : PyClass) : bool :=
  match a, b with
  | Kind j, Kind k => ErrorKind_eqb j k
  | ValidationError, ValidationError
  | IntegrityError, IntegrityError
  | SQLAlchemyError, SQLAlchemyError
  | OperationalError, OperationalError
  | ValueError, ValueError
  | TypeError, TypeError
  | AttributeError, AttributeError
  | Exception_, Exception_ => true
  | _, _ => false
  end.

(** Direct base class; [None] for [Exception], the root kept here. *)
Definition base (c : PyClass) : option PyClass :=
  match c with
  | Kind BadValueError => Some ValueError
  | Kind _ => Some Exception_
  | ValidationError => Some ValueError
  | IntegrityError => Some SQLAlchemyError
  | OperationalError => Some SQLAlchemyError
  | SQLAlchemyError => Some Exception_
  | ValueError => Some Exception_
  | TypeError => Some Exception_
  | AttributeError => Some Exception_
  | Exception_ => None
  end.

(** The chain of bases is at most three classes long. *)
Definition issubclass (c d : PyClass) : bool :=
  PyClass_eqb c d ||
  match base c with
  | None => false
  | Some c1 =>
    PyClass_eqb c1 d ||
    match base c1 with
    | None => false
    | Some c2 => PyClass_eqb c2 d
    end
  end.

Record PyExc : Type := mkExc {
  exc_class : PyClass;
  args : list pyval
}.

Definition isinstance (e : PyExc) (c : PyClass) : bool :=
  issubclass (exc_class e) c.

(** [BaseException.__str__], which the six kinds inherit unchanged. *)
Definition str_exc (e : PyExc) : string :=
  match args e with
  | [] => EmptyString
  | [a] => Py.str a
  | _ => Py.str (PyTuple (args e))
  end.

(* ------------------------------------------------------------------ *)
(** ** responses.py: the envelope, and its serialised form *)

Record ErrorModel : Type := mkErrorModel {
  message : string;
  type : option string          (* Optional[str] = None *)
}.

Record ResponseModel (T : Type) : Type := mkResponseModel {
  success : bool;
  error : option ErrorModel;    (* Optional[ErrorModel] = None *)
  data : option T               (* Optional[T] = None *)
}.
Arguments mkResponseModel {T}.
Arguments success {T}.
Arguments error {T}.
Arguments data {T}.

(** [ResponseModel[None]]: the only value of the data field is [None]. *)
Definition NoneType : Type := Empty_set.

(** What [model_dump()] returns and [JSONResponse] serialises. *)
#[warnings="-register-all"]
Inductive json : Type :=
| JNull
| JBool (b : bool)
| JInt (n : Z)
| JStr (s : string)
| JList (items : list json)
| JDict (fields : list (string * json)).

Definition dump_optional {A : Type} (f : A -> json) (o : option A) : json :=
  match o with
  | Some a => f a
  | None => JNull
  end.

Definition ErrorModel_dump (e : ErrorModel) : json :=
  JDict [("message", JStr (message e)); ("type", dump_optional JStr (type e))].

(** Fields come out in declaration order. *)
Definition model_dump {T : Type} (dump_T : T -> json) (r : ResponseModel T) : json :=
  JDict [("success", JBool (success r));
         ("error", dump_optional ErrorModel_dump (error r));
         ("data", dump_optional dump_T (data r))].

Definition dump_NoneType (x : NoneType) : json := match x with end.

Fixpoint assoc {A : Type} (k : string) (l : list (string * A)) : option A :=
  match l with
  | [] => None
  | (k', v) :: rest => if String.eqb k k' then Some v else assoc k rest
  end.

(** [d[k]] on a dumped model. *)
Definition field (k : string) (j : json) : option json :=
  match j with
  | JDict fields => assoc k fields
  | _ => None
  end.

(** *** The body bytes of a [JSONResponse]

    [json.dumps(content, ensure_ascii=False, separators=(",", ":"))]
    followed by [.encode("utf-8")]. *)

Definition json_char (c : ascii) : string :=
  if Ascii.eqb c dquote then String "\" (String dquote EmptyString)
  else if Ascii.eqb c "\"%char then "\\"
  else if Ascii.eqb c "010"%char then "\n"
  else if Ascii.eqb c "013"%char then "\r"
  else if Ascii.eqb c "009"%char then "\t"
  else if Ascii.eqb c "008"%char then "\b"
  else if Ascii.eqb c "012"%char then "\f"
  else if (nat_of_ascii c <? 32)%nat then "\u00" ++ hex2 c
  else String c EmptyString.

Fixpoint json_chars (s : string) : string :=
  match s with
  | EmptyString => EmptyString
  | String c rest => json_char c ++ json_chars rest
  end.

Definition json_quote (s : string) : string :=
  String dquote (json_chars s ++ String dquote EmptyString).

Fixpoint dumps (j : json) : string :=
  match j with
  | JNull => "null"
  | JBool true => "true"
  | JBool false => "false"
  | JInt n => int_repr n
  | JStr s => json_quote s
  | JList items => "[" ++ String.concat "," (List.map dumps items) ++ "]"
  | JDict fields =>
    "{" ++ String.concat ","
             (List.map (fun kv => match kv with
                                  | (k, v) => json_quote k ++ ":" ++ dumps v
                                  end) fields) ++ "}"
  end.

Definition utf8_char (c : ascii) : list Byte.byte :=
  let n := nat_of_ascii c in
  if (n <? 128)%nat then [byte_of_ascii c]
  else [byte_of_ascii (ascii_of_nat (192 + n / 64));
        byte_of_ascii (ascii_of_nat (128 + n mod 64))].

Fixpoint encode_utf8 (s : string) : list Byte.byte :=
  match s with
  | EmptyString => []
  | String c rest => utf8_char c ++ encode_utf8 rest
  end.

Record JSONResponse : Type := mkJSONResponse {
  status_code : Z;
  content : json
}.

Definition body (r : JSONResponse) : list Byte.byte :=
  encode_utf8 (dumps (content r)).

(** The part of a request a handler could look at. *)
Record Request : Type := mkRequest {
  method : string;
  path : string;
  headers : list (string * string)
}.

(* ------------------------------------------------------------------ *)
(** ** exceptions.py: the six handlers and their table *)

Definition bad_value_error_exception_handler
    (request : Request) (exc : PyExc) : JSONResponse :=
  let text := "Bad Value error" in
  let message :=
    if truthy_str (str_exc exc) then text ++ ":" ++ str_exc exc else text in
  let error := mkErrorModel message (Some "BadValueErr") in
  let response_model : ResponseModel NoneType :=
    mkResponseModel false (Some error) None in
  mkJSONResponse 400 (model_dump dump_NoneType response_model).

Definition database_integrity_error_exception_handler
    (request : Request) (exc : PyExc) : JSONResponse :=
  let text := "Database Integrity error" in
  let message :=
    if truthy_str (str_exc exc) then text ++ ":" ++ str_exc exc else text in
  let error := mkErrorModel message (Some "DatabaseIntegrityErr") in
  let response_model : ResponseModel NoneType :=
    mkResponseModel false (Some error) None in
  mkJSONResponse 400 (model_dump dump_NoneType response_model).

Definition database_error_exception_handler
    (request : Request) (exc : PyExc) : JSONResponse :=
  let text := "Database error" in
  let message :=
    if truthy_str (str_exc exc) then text ++ ":" ++ str_exc exc else text in
  let error := mkErrorModel message (Some "DatabaseErr") in
  let response_model : ResponseModel NoneType :=
    mkResponseModel false (Some error) None in
  mkJSONResponse 400 (model_dump dump_NoneType response_model).

Definition not_found_exception_handler
    (request : Request) (exc : PyExc) : JSONResponse :=
  let text := "Not found" in
  let message :=
    if truthy_str (str_exc exc) then text ++ ":" ++ str_exc exc else text in
  let error := mkErrorModel message (Some "NotFound") in
  let response_model : ResponseModel NoneType :=
    mkResponseModel false (Some error) None in
  mkJSONResponse 404 (model_dump dump_NoneType response_model).

Definition duplicated_exception_handler
    (request : Request) (exc : PyExc) : JSONResponse :=
  let text := "Duplicated entry" in
  let message :=
    if truthy_str (str_exc exc) then text ++ ":" ++ str_exc exc else text in
  let error := mkErrorModel message (Some "DuplicatedEntry") in
  let response_model : ResponseModel NoneType :=
    mkResponseModel false (Some error) None in
  mkJSONResponse 400 (model_dump dump_NoneType response_model).

Definition internal_server_error_exception_handler
    (request : Request) (exc : PyExc) : JSONResponse :=
  let text := "Unknown error" in
  let message :=
    if truthy_str (str_exc exc) then text ++ ":" ++ str_exc exc else text in
  let error := mkErrorModel message (Some "UnknownErr") in
  let response_model : ResponseModel NoneType :=
    mkResponseModel false (Some error) None in
  mkJSONResponse 500 (model_dump dump_NoneType response_model).

Definition Handler : Type := Request -> PyExc -> JSONResponse.

Definition exception_to_handler_list : list (PyClass * Handler) :=
  [ (Kind BadValueError, bad_value_error_exception_handler);
    (Kind NotFoundError, not_found_exception_handler);
    (Kind DuplicatedError, duplicated_exception_handler);
    (Kind InternalServerError, internal_server_error_exception_handler);
    (Kind DatabaseError, database_error_exception_handler);
    (Kind DatabaseIntegrityError, database_integrity_error_exception_handler) ].

(** Modelled from the spec: the code that registers the table with the
    application and picks a handler for a raised exception is not part of
    the sources; the spec says lookup is by exact exception-kind match with
    no fallback.  The first pair of the table whose class is [c] wins. *)
Fixpoint lookup_handler_in (table : list (PyClass * Handler)) (c : PyClass)
  : option Handler :=
  match table with
  | [] => None
  | (c', h) :: rest =>
    if PyClass_eqb c c' then Some h else lookup_handler_in rest c
  end.

Definition lookup_handler : PyClass -> option Handler :=
  lookup_handler_in exception_to_handler_list.

(** Reading a produced response back. *)
Definition response_error (r : JSONResponse) : option json :=
  field "error" (content r).

Definition error_message (r : JSONResponse) : option json :=
  match response_error r with
  | Some e => field "message" e
  | None => None
  end.

Definition error_type (r : JSONResponse) : option json :=
  match response_error r with
  | Some e => field "type" e
  | None => None
  end.

(* ------------------------------------------------------------------ *)
(** ** common.py: pagination parameters *)

Record CommonQueryParams : Type := mkCommonQueryParams {
  q : option string;
  skip : Z;
  limit : Z
}.

(** [__init__(self, q=None, skip=0, limit=10)]: an argument left out is
    [None] here and takes its default; nothing is checked. *)
Definition CommonQueryParams_init (q : option string)
    (skip limit : option Z) : CommonQueryParams :=
  mkCommonQueryParams q
    (match skip with Some n => n | None => 0 end)
    (match limit with Some n => n | None => 10 end).

(* ------------------------------------------------------------------ *)
(** ** The collaborators of the repository *)

Inductive Res (A : Type) : Type :=
| Ok (a : A)
| Raise (e : PyExc).
Arguments Ok {A}.
Arguments Raise {A}.

(** What the repository calls but does not define: the SQLAlchemy session
    and its query objects, the model class, attribute assignment on ORM
    objects.  [W] is the state all of them share (database, identity map,
    open transaction); a call returns or raises, and leaves a new state.
    [Obj] and [Query] are references, so passing one on passes the same
    object.  [session.rollback()] is taken to return normally. *)
Class Collaborators : Type := {
  W : Type;
  Model : Type;
  Query : Type;
  Obj : Type;
  session_query : option Model -> W -> Res Query * W;
  query_filter_by : Query -> pyval -> W -> Res Query * W;   (* filter_by(id=..) *)
  query_first : Query -> W -> Res (option Obj) * W;
  query_offset : Query -> Z -> W -> Res Query * W;
  query_limit : Query -> Z -> W -> Res Query * W;
  query_all : Query -> W -> Res (list Obj) * W;
  model_new : Model -> list (string * pyval) -> W -> Res Obj * W;  (* the class, called with keywords *)
  obj_setattr : Obj -> string -> pyval -> W -> Res unit * W;
  session_add : Obj -> W -> Res unit * W;
  session_commit : W -> Res unit * W;
  session_refresh : Obj -> W -> Res unit * W;
  session_delete : Obj -> W -> Res unit * W;
  session_rollback : W -> W;
  in_transaction : W -> bool
}.

Section Repository.
Context {C : Collaborators}.

(** One entry per call made on a collaborator, per [logger.error] and per
    [raise] statement executed, oldest first. *)
Inductive Event : Type :=
| EvQuery (model_type : option Model)
| EvFilterBy (q : Query) (id : pyval)
| EvFirst (q : Query)
| EvOffset (q : Query) (skip : Z)
| EvLimit (q : Query) (limit : Z)
| EvAll (q : Query)
| EvModel (model_type : option Model) (kwargs : list (string * pyval))
| EvSetattr (o : Obj) (key : string) (value : pyval)
| EvAdd (o : Obj)
| EvCommit
| EvRefresh (o : Obj)
| EvDelete (o : Obj)
| EvRollback
| EvLogError (fmt : string) (e : PyExc)
| EvRaise (e : PyExc).

Record St : Type := mkSt {
  world : W;
  journal : list Event
}.

Definition M (A : Type) : Type := St -> Res A * St.

Definition ret {A : Type} (a : A) : M A := fun s => (Ok a, s).

Definition bind {A B : Type} (m : M A) (k : A -> M B) : M B :=
  fun s =>
    match m s with
    | (Ok a, s') => k a s'
    | (Raise e, s') => (Raise e, s')
    end.

Definition log (ev : Event) : M unit :=
  fun s => (Ok tt, mkSt (world s) (journal s ++ [ev])).

(** A call on a collaborator: journal it, then let it act on the world. *)
Definition call {A : Type} (ev : Event) (op : W -> Res A * W) : M A :=
  fun s =>
    match op (world s) with
    | (r, w') => (r, mkSt w' (journal s ++ [ev]))
    end.

(** The [raise] statement. *)
Definition raise_ {A : Type} (e : PyExc) : M A :=
  fun s => (Raise e, mkSt (world s) (journal s ++ [EvRaise e])).

(** [try: body  except ...: handler]; the handler sees the exception and
    re-raises the ones no clause matches. *)
Definition try_except {A : Type} (body : M A) (handler : PyExc -> M A) : M A :=
  fun s =>
    match body s with
    | (Ok a, s') => (Ok a, s')
    | (Raise e, s') => handler e s'
    end.

(** An exception no [except] clause matches keeps propagating. *)
Definition propagate {A : Type} (e : PyExc) : M A := fun s => (Raise e, s).

End Repository.

Declare Scope repo_scope.
Delimit Scope repo_scope with repo.
Notation "x <- m ;; k" := (bind m (fun x => k))
  (at level 61, m at next level, right associativity) : repo_scope.
Notation "m ;;; k" := (bind m (fun _ => k))
  (at level 61, right associativity) : repo_scope.

Section SQLAlchemyRepository.
Context {C : Collaborators}.
Local Open Scope repo_scope.

Definition rollback : M unit :=
  call EvRollback (fun w => (Ok tt, session_rollback w)).

Definition logger_error (fmt : string) (e : PyExc) : M unit :=
  log (EvLogError fmt e).

(** [self]: the session lives in the world; [model_type] is the class
    given to [__init__], or [None]. *)
Record SQLAlchemyRepository : Type := mkRepo {
  self_model_type : option Model
}.

(** [a or b] on two class-or-[None] values: a class is true. *)
Definition py_or (a b : option Model) : option Model :=
  match a with
  | Some _ => a
  | None => b
  end.

(** [self.model_type] called with [obj_in] as keyword arguments; calling
    [None] raises [TypeError]. *)
Definition construct (mt : option Model) (kwargs : list (string * pyval)) : M Obj :=
  call (EvModel mt kwargs)
    (fun w =>
       match mt with
       | Some cls => model_new cls kwargs w
       | None => (Raise (mkExc TypeError
                           [PyStr "'NoneType' object is not callable"]), w)
       end).

(** The two clauses every method ends with:
    [except IntegrityError as e] and [except SQLAlchemyError as e]. *)
Definition except_database {A : Type} (e : PyExc) : M A :=
  if isinstance e IntegrityError then
    rollback ;;;
    logger_error "Erro de Integridade do Banco de Dados: %s" e ;;;
    raise_ (mkExc DatabaseIntegrityError [PyTuple (args e)])
  else if isinstance e SQLAlchemyError then
    rollback ;;;
    logger_error "Erro do Banco de Dados: %s" e ;;;
    raise_ (mkExc DatabaseError [PyTuple (args e)])
  else propagate e.

Definition get_try (self : SQLAlchemyRepository)
    (model_type : option Model) (id : pyval) : M (option Obj) :=
  let mt := py_or (self_model_type self) model_type in
  q0 <- call (EvQuery mt) (session_query mt) ;;
  q1 <- call (EvFilterBy q0 id) (query_filter_by q0 id) ;;
  result <- call (EvFirst q1) (query_first q1) ;;
  ret result.

Definition get (self : SQLAlchemyRepository)
    (model_type : option Model) (id : pyval) : M (option Obj) :=
  try_except (get_try self model_type id) except_database.

Definition get_multi_try (self : SQLAlchemyRepository)
    (model_type : option Model) (skip limit : Z) : M (list Obj) :=
  let mt := py_or (self_model_type self) model_type in
  q0 <- call (EvQuery mt) (session_query mt) ;;
  q1 <- call (EvOffset q0 skip) (query_offset q0 skip) ;;
  q2 <- call (EvLimit q1 limit) (query_limit q1 limit) ;;
  result <- call (EvAll q2) (query_all q2) ;;
  ret result.

Definition get_multi (self : SQLAlchemyRepository)
    (model_type : option Model) (skip limit : Z) : M (list Obj) :=
  try_except (get_multi_try self model_type skip limit) except_database.

(** The parameter [db_obj] is rebound on the first line of the [try]. *)
Definition create_try (self : SQLAlchemyRepository)
    (db_obj : Obj) (obj_in : list (string * pyval)) : M Obj :=
  db_obj <- construct (self_model_type self) obj_in ;;
  call (EvAdd db_obj) (session_add db_obj) ;;;
  call EvCommit session_commit ;;;
  call (EvRefresh db_obj) (session_refresh db_obj) ;;;
  ret db_obj.

Definition parsing_message : string :=
  "Erro inesperado ao fazer o parsing para o modelo".

Definition create_except (e : PyExc) : M Obj :=
  if isinstance e ValidationError then
    raise_ (mkExc InternalServerError [PyStr parsing_message; PyTuple (args e)])
  else except_database e.

Definition create (self : SQLAlchemyRepository)
    (db_obj : Obj) (obj_in : list (string * pyval)) : M Obj :=
  try_except (create_try self db_obj obj_in) create_except.

(** [for key, value in obj_in.items(): setattr(db_obj, key, value)] *)
Fixpoint setattrs (db_obj : Obj) (items : list (string * pyval)) : M unit :=
  match items with
  | [] => ret tt
  | (key, value) :: rest =>
    call (EvSetattr db_obj key value) (obj_setattr db_obj key value) ;;;
    setattrs db_obj rest
  end.

Definition update_try (self : SQLAlchemyRepository)
    (db_obj : Obj) (obj_in : list (string * pyval)) : M unit :=
  setattrs db_obj obj_in ;;;
  call (EvAdd db_obj) (session_add db_obj) ;;;
  call EvCommit session_commit ;;;
  call (EvRefresh db_obj) (session_refresh db_obj).

Definition update (self : SQLAlchemyRepository)
    (db_obj : Obj) (obj_in : list (string * pyval)) : M unit :=
  try_except (update_try self db_obj obj_in) except_database.

Definition delete_try (self : SQLAlchemyRepository) (db_obj : Obj) : M unit :=
  call (EvDelete db_obj) (session_delete db_obj) ;;;
  call EvCommit session_commit.

Definition delete (self : SQLAlchemyRepository) (db_obj : Obj) : M unit :=
  try_except (delete_try self db_obj) except_database.

End SQLAlchemyRepository.

(* ------------------------------------------------------------------ *)
(** ** The five methods under one name *)

Section Operations.
Context {C : Collaborators}.

Inductive Op : Type :=
| OpGet (model_type : option Model) (id : pyval)
| OpGetMulti (model_type : option Model) (skip limit : Z)
| OpCreate (db_obj : Obj) (obj_in : list (string * pyval))
| OpUpdate (db_obj : Obj) (obj_in : list (string * pyval))
| OpDelete (db_obj : Obj).

Inductive RetVal : Type :=
| RetOptional (o : option Obj)
| RetList (l : list Obj)
| RetObj (o : Obj)
| RetNone.

Definition fmap {A B : Type} (f : A -> B) (m : M A) : M B :=
  fun s =>
    match m s with
    | (Ok a, s') => (Ok (f a), s')
    | (Raise e, s') => (Raise e, s')
    end.

(** The method call. *)
Definition invoke (self : SQLAlchemyRepository) (op : Op) : M RetVal :=
  match op with
  | OpGet mt id => fmap RetOptional (get self mt id)
  | OpGetMulti mt skip limit => fmap RetList (get_multi self mt skip limit)
  | OpCreate db_obj obj_in => fmap RetObj (create self db_obj obj_in)
  | OpUpdate db_obj obj_in => fmap (fun _ => RetNone) (update self db_obj obj_in)
  | OpDelete db_obj => fmap (fun _ => RetNone) (delete self db_obj)
  end.

(** The statements under its [try:]. *)
Definition try_block (self : SQLAlchemyRepository) (op : Op) : M RetVal :=
  match op with
  | OpGet mt id => fmap RetOptional (get_try self mt id)
  | OpGetMulti mt skip limit => fmap RetList (get_multi_try self mt skip limit)
  | OpCreate db_obj obj_in => fmap RetObj (create_try self db_obj obj_in)
  | OpUpdate db_obj obj_in => fmap (fun _ => RetNone) (update_try self db_obj obj_in)
  | OpDelete db_obj => fmap (fun _ => RetNone) (delete_try self db_obj)
  end.

(** The handler that follows the [try:] of each method. *)
Definition except_clauses (op : Op) : PyExc -> M RetVal :=
  match op with
  | OpCreate _ _ => fun e => fmap RetObj (create_except e)
  | _ => except_database
  end.

Definition is_create (op : Op) : bool :=
  match op with
  | OpCreate _ _ => true
  | _ => false
  end.

(** The classes queried, in order. *)
Fixpoint queries (j : list Event) : list (option Model) :=
  match j with
  | [] => []
  | EvQuery mt :: rest => mt :: queries rest
  | _ :: rest => queries rest
  end.

Fixpoint rollbacks (j : list Event) : nat :=
  match j with
  | [] => 0%nat
  | EvRollback :: rest => S (rollbacks rest)
  | _ :: rest => rollbacks rest
  end.

(** The exceptions of the [raise] statements executed, in order. *)
Fixpoint raises (j : list Event) : list PyExc :=
  match j with
  | [] => []
  | EvRaise e :: rest => e :: raises rest
  | _ :: rest => raises rest
  end.

(** A call on a collaborator, as opposed to what only the [except]
    clauses do. *)
Definition is_call (ev : Event) : bool :=
  match ev with
  | EvRollback | EvLogError _ _ | EvRaise _ => false
  | _ => true
  end.

(** A call that builds or changes an object, or writes to the database. *)
Definition is_mutation (ev : Event) : bool :=
  match ev with
  | EvModel _ _ | EvSetattr _ _ _ | EvAdd _ | EvCommit | EvRefresh _
  | EvDelete _ => true
  | _ => false
  end.

Fixpoint mutations (j : list Event) : nat :=
  match j with
  | [] => 0%nat
  | ev :: rest =>
    ((if is_mutation ev then 1 else 0) + mutations rest)%nat
  end.

(** The assignments [update] makes for a mapping, in its order. *)
Definition setattr_events (db_obj : Obj) (items : list (string * pyval))
  : list Event :=
  List.map (fun kv => EvSetattr db_obj (fst kv) (snd kv)) items.

End Operations.

(* ------------------------------------------------------------------ *)
(** ** The tables of the specification *)

(** §3 of the specification: HTTP status and label per kind. *)
Definition spec_table (k : ErrorKind) : Z * string :=
  match k with
  | BadValueError => (400, "BadValueErr")
  | NotFoundError => (404, "NotFound")
  | DuplicatedError => (400, "DuplicatedEntry")
  | InternalServerError => (500, "UnknownErr")
  | DatabaseIntegrityError => (400, "DatabaseIntegrityErr")
  | DatabaseError => (400, "DatabaseErr")
  end.

(** §3 of the specification: the rows of the table, top to bottom. *)
Definition spec_table_order : list ErrorKind :=
  [BadValueError; NotFoundError; DuplicatedError; InternalServerError;
   DatabaseIntegrityError; DatabaseError].

(** The order of [exception_to_handler_list] in [exceptions.py]. *)
Definition source_table_order : list ErrorKind :=
  [BadValueError; NotFoundError; DuplicatedError; InternalServerError;
   DatabaseError; DatabaseIntegrityError].

(** The [text] constant of the handler registered for each kind. *)
Definition fixed_prefix (k : ErrorKind) : string :=
  match k with
  | BadValueError => "Bad Value error"
  | NotFoundError => "Not found"
  | DuplicatedError => "Duplicated entry"
  | InternalServerError => "Unknown error"
  | DatabaseIntegrityError => "Database Integrity error"
  | DatabaseError => "Database error"
  end.

(** §3 and §4.2: the prefix alone, or prefix, colon and cause. *)
Definition spec_message (prefix cause : string) : string :=
  match cause with
  | EmptyString => prefix
  | _ => prefix ++ ":" ++ cause
  end.

Fixpoint last_char (s : string) : option ascii :=
  match s with
  | EmptyString => None
  | String c EmptyString => Some c
  | String _ rest => last_char rest
  end.

Definition ends_with_colon (s : string) : bool :=
  match last_char s with
  | Some c => Ascii.eqb c ":"%char
  | None => false
  end.

Definition kinds_of (table : list (PyClass * Handler)) : list PyClass :=
  List.map fst table.

Fixpoint count_class (c : PyClass) (l : list PyClass) : nat :=
  match l with
  | [] => 0%nat
  | d :: rest => ((if PyClass_eqb c d then 1 else 0) + count_class c rest)%nat
  end.

(** What the translation boundary answers to a method that raised. *)
Definition translate {A : Type} (req : Request) (r : Res A)
  : option JSONResponse :=
  match r with
  | Ok _ => None
  | Raise e =>
    match lookup_handler (exc_class e) with
    | Some h => Some (h req e)
    | None => None
    end
  end.

(** The handler the table pairs with each kind. *)
Definition handler_of (k : ErrorKind) : Handler :=
  match k with
  | BadValueError => bad_value_error_exception_handler
  | NotFoundError => not_found_exception_handler
  | DuplicatedError => duplicated_exception_handler
  | InternalServerError => internal_server_error_exception_handler
  | DatabaseError => database_error_exception_handler
  | DatabaseIntegrityError => database_integrity_error_exception_handler
  end.

(** The envelope a handler dumps into its response. *)
Definition handler_envelope (k : ErrorKind) (cause : string)
  : ResponseModel NoneType :=
  mkResponseModel false
    (Some (mkErrorModel (spec_message (fixed_prefix k) cause)
             (Some (snd (spec_table k)))))
    None.

(** Modelled from the spec: no function of the sources builds a success
    envelope (the routers that do are outside); §4.3 gives its contract:
    [success=true], [data=<result>], [error] absent.  A result that is
    Python's [None] is [None] here. *)
Definition success_envelope {T : Type} (V : option T) : ResponseModel T :=
  mkResponseModel true None V.

Definition is_some {A : Type} (o : option A) : bool :=
  match o with
  | Some _ => true
  | None => false
  end.

(** §8: [{success: false, data: absent, error: {...}}]. *)
Definition error_shape {T : Type} (r : ResponseModel T) : bool :=
  negb (success r) && is_some (error r) && negb (is_some (data r)).

(** §8: [{success: true, data: V, error: absent}]. *)
Definition success_shape {T : Type} (r : ResponseModel T) : bool :=
  success r && negb (is_some (error r)).

(* ------------------------------------------------------------------ *)
(** ** A small in-memory session, to run the methods on *)

Module Demo.

(** One mapped class, ["users"], with columns [id] and [name]; [id] is
    unique.  Objects are positions in [heap]. *)
Record Row : Type := mkRow { row_id : Z; row_name : string }.

Record Q : Type := mkQ {
  q_model : option string;
  q_id : option pyval;
  q_offset : Z;
  q_limit : option Z
}.

Record World : Type := mkWorld {
  txn : bool;                  (* a transaction is open *)
  heap : list Row;             (* every object built so far *)
  table : list nat;            (* the committed objects *)
  pending : list nat;          (* added, not yet committed *)
  doomed : list nat            (* deleted, not yet committed *)
}.

Definition empty : World := mkWorld false [] [] [] [].

Definition row_of (w : World) (o : nat) : Row :=
  nth o (heap w) (mkRow 0 EmptyString).

Definition mapped (m : option string) : bool :=
  match m with
  | Some name => String.eqb name "users"
  | None => false
  end.

Definition no_such_table : PyExc :=
  mkExc OperationalError [PyStr "no such table"].

Definition unique_failed : PyExc :=
  mkExc IntegrityError [PyStr "UNIQUE constraint failed: users.id"].

Definition field_required : PyExc :=
  mkExc ValidationError [PyStr "Field required"].

Definition has_id (w : World) (i : Z) (o : nat) : bool :=
  row_id (row_of w o) =? i.

Definition matches (w : World) (id : option pyval) (o : nat) : bool :=
  match id with
  | None => true
  | Some (PyInt i) => has_id w i o
  | Some _ => false
  end.

Definition select (w : World) (q : Q) : list nat :=
  let found := List.filter (matches w (q_id q)) (table w) in
  let rest := skipn (Z.to_nat (q_offset q)) found in
  match q_limit q with
  | Some n => firstn (Z.to_nat n) rest
  | None => rest
  end.

Definition begin (w : World) : World :=
  mkWorld true (heap w) (table w) (pending w) (doomed w).

Definition d_first (q : Q) (w : World) : Res (option nat) * World :=
  if mapped (q_model q)
  then (Ok (List.hd_error (select w q)), begin w)
  else (Raise no_such_table, begin w).

Definition d_all (q : Q) (w : World) : Res (list nat) * World :=
  if mapped (q_model q)
  then (Ok (select w q), begin w)
  else (Raise no_such_table, begin w).

Definition d_new (cls : string) (kw : list (string * pyval)) (w : World)
  : Res nat * World :=
  match assoc "id" kw, assoc "name" kw with
  | Some (PyInt i), Some (PyStr n) =>
    (Ok (List.length (heap w)),
     mkWorld (txn w) (heap w ++ [mkRow i n]) (table w) (pending w) (doomed w))
  | _, _ => (Raise field_required, w)
  end.

Fixpoint set_nth (o : nat) (r : Row) (l : list Row) : list Row :=
  match l, o with
  | [], _ => []
  | _ :: rest, O => r :: rest
  | x :: rest, S o' => x :: set_nth o' r rest
  end.

Definition d_setattr (o : nat) (k : string) (v : pyval) (w : World)
  : Res unit * World :=
  let old := row_of w o in
  match v with
  | PyInt i =>
    if String.eqb k "id"
    then (Ok tt, mkWorld (txn w) (set_nth o (mkRow i (row_name old)) (heap w))
                   (table w) (pending w) (doomed w))
    else (Raise (mkExc AttributeError [PyStr k]), w)
  | PyStr n =>
    if String.eqb k "name"
    then (Ok tt, mkWorld (txn w) (set_nth o (mkRow (row_id old) n) (heap w))
                   (table w) (pending w) (doomed w))
    else (Raise (mkExc AttributeError [PyStr k]), w)
  | _ => (Raise (mkExc AttributeError [PyStr k]), w)
  end.

Definition d_add (o : nat) (w : World) : Res unit * World :=
  (Ok tt, mkWorld true (heap w) (table w) (pending w ++ [o]) (doomed w)).

Definition d_delete (o : nat) (w : World) : Res unit * World :=
  (Ok tt, mkWorld true (heap w) (table w) (pending w) (doomed w ++ [o])).

Definition mem (o : nat) (l : list nat) : bool := List.existsb (Nat.eqb o) l.

(** A pending object whose [id] is that of another committed object makes
    the flush fail. *)
Definition clashes (w : World) (o : nat) : bool :=
  List.existsb (fun p => negb (Nat.eqb p o) && has_id w (row_id (row_of w o)) p)
    (table w).

Definition d_commit (w : World) : Res unit * World :=
  if List.existsb (clashes w) (pending w ++ table w)
  then (Raise unique_failed, begin w)
  else
    let kept := List.filter (fun o => negb (mem o (doomed w))) (table w) in
    let fresh := List.filter (fun o => negb (mem o kept)) (pending w) in
    (Ok tt, mkWorld false (heap w) (kept ++ fresh) [] []).

Definition d_refresh (o : nat) (w : World) : Res unit * World :=
  if mem o (table w) then (Ok tt, begin w)
  else (Raise (mkExc OperationalError [PyStr "not persistent"]), begin w).

Definition d_rollback (w : World) : World :=
  mkWorld false (heap w) (table w) [] [].

#[export] Instance session : Collaborators := {|
  W := World;
  Model := string;
  Query := Q;
  Obj := nat;
  session_query := fun m w => (Ok (mkQ m None 0 None), w);
  query_filter_by := fun q id w =>
    (Ok (mkQ (q_model q) (Some id) (q_offset q) (q_limit q)), w);
  query_first := d_first;
  query_offset := fun q n w =>
    (Ok (mkQ (q_model q) (q_id q) n (q_limit q)), w);
  query_limit := fun q n w =>
    (Ok (mkQ (q_model q) (q_id q) (q_offset q) (Some n)), w);
  query_all := d_all;
  model_new := d_new;
  obj_setattr := d_setattr;
  session_add := d_add;
  session_commit := d_commit;
  session_refresh := d_refresh;
  session_delete := d_delete;
  session_rollback := d_rollback;
  in_transaction := txn
|}.

Definition users : SQLAlchemyRepository := mkRepo (Some "users").

Definition start : St := mkSt empty [].

Definition ann : list (string * pyval) :=
  [("id", PyInt 1); ("name", PyStr "ann")].

Definition bob_as_1 : list (string * pyval) :=
  [("id", PyInt 1); ("name", PyStr "bob")].

(** The state after a first, successful [create]. *)
Definition with_ann : St := snd (create users 0%nat ann start).

Definition request : Request := mkRequest "GET" "/users/42" [].

(** A repository built without a class, and a lookup in a class that is
    not mapped. *)
Definition unbound : SQLAlchemyRepository := mkRepo None.

Definition get_nope : Op := OpGet (Some "nope") (PyInt 1).

Definition create_ann : Op := OpCreate 0%nat ann.

(** A second object with the [id] of the first. *)
Definition create_bob : Op := OpCreate 7%nat bob_as_1.

(** An attribute the class does not have. *)
Definition update_age : Op := OpUpdate 0%nat [("age", PyInt 30)].

(** A change of name, then of [id]. *)
Definition rename : list (string * pyval) :=
  [("name", PyStr "anna"); ("id", PyInt 2)].

(** The second key is no attribute of the class. *)
Definition rename_badly : list (string * pyval) :=
  [("name", PyStr "anna"); ("age", PyInt 30); ("id", PyInt 2)].

End Demo.

(* ================================================================== *)
(** * Properties of the handlers and of their table *)

Lemma lookup_handler_kind (k : ErrorKind) :
  lookup_handler k = Some (handler_of k).
Proof. destruct k; reflexivity. Qed.

Lemma truthy_message (prefix cause : string) :
  (if truthy_str cause then prefix ++ ":" ++ cause else prefix)
  = spec_message prefix cause.
Proof. destruct cause; reflexivity. Qed.

Lemma spec_message_empty (prefix : string) :
  spec_message prefix EmptyString = prefix.
Proof. reflexivity. Qed.

Lemma spec_message_nonempty (prefix cause : string) :
  cause <> EmptyString -> spec_message prefix cause = prefix ++ ":" ++ cause.
Proof. destruct cause; [congruence | reflexivity]. Qed.

Lemma handler_normal_form (k : ErrorKind) (req : Request) (e : PyExc) :
  handler_of k req e =
  mkJSONResponse (fst (spec_table k))
    (model_dump dump_NoneType (handler_envelope k (str_exc e))).
Proof.
  destruct k; cbv beta delta [handler_of handler_envelope
    bad_value_error_exception_handler not_found_exception_handler
    duplicated_exception_handler internal_server_error_exception_handler
    database_error_exception_handler
    database_integrity_error_exception_handler] iota zeta;
    rewrite truthy_message; reflexivity.
Qed.

Lemma error_message_normal_form (k : ErrorKind) (req : Request) (e : PyExc) :
  error_message (handler_of k req e)
  = Some (JStr (spec_message (fixed_prefix k) (str_exc e))).
Proof. rewrite handler_normal_form. reflexivity. Qed.

Lemma last_char_app (a b : string) :
  b <> EmptyString -> last_char (a ++ b) = last_char b.
Proof.
  intros Hb. induction a as [|c a IH]; [reflexivity|].
  cbn [append last_char]. rewrite IH.
  destruct (a ++ b) eqn:E; [|reflexivity].
  destruct a; cbn in E; congruence.
Qed.

Lemma ends_with_colon_message (k : ErrorKind) (cause : string) :
  ends_with_colon (spec_message (fixed_prefix k) cause) = ends_with_colon cause.
Proof.
  destruct cause as [|c rest].
  - destruct k; reflexivity.
  - unfold spec_message, ends_with_colon.
    rewrite last_char_app by discriminate.
    rewrite last_char_app by discriminate. reflexivity.
Qed.

Lemma append_length (a b : string) :
  String.length (a ++ b) = (String.length a + String.length b)%nat.
Proof. induction a; cbn; congruence. Qed.

Lemma message_is_not_dangling (prefix cause : string) :
  String.eqb (spec_message prefix cause) (prefix ++ ":") = false.
Proof.
  apply String.eqb_neq. intros H.
  apply (f_equal String.length) in H.
  destruct cause; cbn [spec_message] in H;
    repeat rewrite append_length in H; cbn in H; lia.
Qed.

(** C1. For each of the six kinds, the handler registered for an exception
    of that kind answers with the status code and the [error.type] of the
    kind's row in the table of §3. *)
Theorem registered_handler_status_and_type :
  forall (k : ErrorKind) (req : Request) (e : PyExc),
    exc_class e = Kind k ->
    exists h : Handler,
      lookup_handler (exc_class e) = Some h /\
      status_code (h req e) = fst (spec_table k) /\
      error_type (h req e) = Some (JStr (snd (spec_table k))).
Proof.
  intros k req e Hk. exists (handler_of k). rewrite Hk.
  split; [apply lookup_handler_kind|].
  rewrite handler_normal_form. split; reflexivity.
Qed.

Lemma registered_handler_status_and_type_witness :
  exists h : Handler,
    lookup_handler (Kind NotFoundError) = Some h /\
    status_code (h Demo.request (mkExc NotFoundError [PyStr "42"])) = 404 /\
    error_type (h Demo.request (mkExc NotFoundError [PyStr "42"]))
    = Some (JStr "NotFound").
Proof.
  exact (registered_handler_status_and_type NotFoundError Demo.request
           (mkExc NotFoundError [PyStr "42"]) eq_refl).
Defined.

(** C2, as stated: for every exception and every handler the message
    never has a trailing colon.  It can have one: the handlers append
    [str(e)] as it is, so [NotFoundError("a:")] is answered with
    ["Not found:a:"]. *)
Lemma message_ends_in_colon_when_cause_does :
  error_message (not_found_exception_handler Demo.request
                   (mkExc NotFoundError [PyStr "a:"]))
  = Some (JStr "Not found:a:") /\
  ends_with_colon "Not found:a:" = true /\
  ~ (forall (k : ErrorKind) (req : Request) (e : PyExc) (h : Handler)
            (msg : string),
       lookup_handler k = Some h ->
       error_message (h req e) = Some (JStr msg) ->
       ends_with_colon msg = false).
Proof.
  split; [reflexivity|]. split; [reflexivity|].
  intros H.
  specialize (H NotFoundError Demo.request (mkExc NotFoundError [PyStr "a:"])
                not_found_exception_handler "Not found:a:" eq_refl eq_refl).
  discriminate H.
Qed.

(** C2, amended. For every handler of the table and every exception, the
    [error.message] of the response is the handler's fixed prefix alone
    when [str(e)] is empty, and prefix, colon and [str(e)] when it is not;
    the handler leaves no colon of its own at the end: the message is
    never the prefix followed by a bare colon, and it ends in a colon
    exactly when [str(e)] itself does. *)
Theorem handler_message_is_prefix_colon_cause :
  forall (k : ErrorKind) (req : Request) (e : PyExc),
  exists (h : Handler) (msg : string),
    lookup_handler k = Some h /\
    error_message (h req e) = Some (JStr msg) /\
    (str_exc e = EmptyString -> msg = fixed_prefix k) /\
    (str_exc e <> EmptyString -> msg = fixed_prefix k ++ ":" ++ str_exc e) /\
    msg <> fixed_prefix k ++ ":" /\
    ends_with_colon msg = ends_with_colon (str_exc e).
Proof.
  intros k req e.
  exists (handler_of k), (spec_message (fixed_prefix k) (str_exc e)).
  split; [apply lookup_handler_kind|].
  split; [apply error_message_normal_form|].
  split; [intros H; rewrite H; apply spec_message_empty|].
  split; [apply spec_message_nonempty|].
  split; [apply String.eqb_neq, message_is_not_dangling|].
  apply ends_with_colon_message.
Qed.

Lemma handler_message_is_prefix_colon_cause_witness :
  error_message (not_found_exception_handler Demo.request
                   (mkExc NotFoundError []))
  = Some (JStr "Not found") /\
  error_message (not_found_exception_handler Demo.request
                   (mkExc NotFoundError [PyStr "42"]))
  = Some (JStr "Not found:42").
Proof.
  split.
  - destruct (handler_message_is_prefix_colon_cause NotFoundError
                Demo.request (mkExc NotFoundError []))
      as [h [msg [Hh [Hmsg [Hempty _]]]]].
    injection Hh as Hh. subst h.
    rewrite Hmsg, (Hempty eq_refl). reflexivity.
  - destruct (handler_message_is_prefix_colon_cause NotFoundError
                Demo.request (mkExc NotFoundError [PyStr "42"]))
      as [h [msg [Hh [Hmsg [_ [Hcause _]]]]]].
    injection Hh as Hh. subst h.
    rewrite Hmsg, Hcause by discriminate. reflexivity.
Defined.

(** Scenario B of §8. *)
Example not_found_42 :
  dumps (content (not_found_exception_handler Demo.request
                    (mkExc NotFoundError [PyStr "42"])))
  = String.concat (String dquote EmptyString)
      ["{"; "success"; ":false,"; "error"; ":{"; "message"; ":";
       "Not found:42"; ","; "type"; ":"; "NotFound"; "},"; "data"; ":null}"].
Proof. reflexivity. Qed.

Example not_found_no_argument :
  error_message (not_found_exception_handler Demo.request
                   (mkExc NotFoundError []))
  = Some (JStr "Not found").
Proof. reflexivity. Qed.

(** C3, as stated: the table lists the kinds in the order of the rows of
    §3.  It does not: its last two entries are [DatabaseError], then
    [DatabaseIntegrityError]. *)
Lemma table_order_is_not_spec_order :
  kinds_of exception_to_handler_list <> List.map Kind spec_table_order.
Proof. discriminate. Qed.

(** C3, amended. The table holds six pairs, exactly one per kind, each
    kind with its own handler, in the order BadValue, NotFound,
    Duplicated, InternalServerError, DatabaseError,
    DatabaseIntegrityError. *)
Theorem table_one_handler_per_kind_in_source_order :
  kinds_of exception_to_handler_list = List.map Kind source_table_order /\
  List.length exception_to_handler_list = 6%nat /\
  forall k : ErrorKind,
    count_class k (kinds_of exception_to_handler_list) = 1%nat /\
    lookup_handler k = Some (handler_of k).
Proof.
  split; [reflexivity|]. split; [reflexivity|].
  intros k. split; [destruct k; reflexivity | apply lookup_handler_kind].
Qed.

(** C7. The response of every handler is the dump of an envelope with
    [success=false], an [error] present and no [data]; the success
    envelope around [V] has [success=true], [data=V] and no [error]; no
    envelope has both shapes. *)
Theorem envelope_shapes_are_exclusive :
  (forall (k : ErrorKind) (req : Request) (e : PyExc),
     exists (h : Handler) (env : ResponseModel NoneType),
       lookup_handler k = Some h /\
       content (h req e) = model_dump dump_NoneType env /\
       error_shape env = true /\
       success env = false /\ is_some (error env) = true /\ data env = None /\
       field "success" (content (h req e)) = Some (JBool false) /\
       field "data" (content (h req e)) = Some JNull) /\
  (forall (T : Type) (V : option T),
     success_shape (success_envelope V) = true /\
     success (success_envelope V) = true /\
     data (success_envelope V) = V /\
     error (success_envelope V) = None) /\
  (forall (T : Type) (r : ResponseModel T),
     error_shape r && success_shape r = false).
Proof.
  split; [|split].
  - intros k req e.
    exists (handler_of k), (handler_envelope k (str_exc e)).
    split; [apply lookup_handler_kind|].
    rewrite handler_normal_form. repeat split.
  - intros T V. repeat split.
  - intros T [[|] err dat]; unfold error_shape, success_shape; cbn.
    + reflexivity.
    + apply andb_false_r.
Qed.

(** C8. The response of a handler is a function of [str(e)] alone: the
    request has no part in it, and two invocations on the same exception,
    with any two requests, give the same response and the same body
    bytes. *)
Theorem handler_is_a_function_of_the_exception :
  forall k : ErrorKind,
  exists (h : Handler) (f : string -> JSONResponse),
    lookup_handler k = Some h /\
    (forall (r : Request) (e : PyExc), h r e = f (str_exc e)) /\
    (forall (r1 r2 : Request) (e : PyExc),
       h r1 e = h r2 e /\ body (h r1 e) = body (h r2 e)).
Proof.
  intros k.
  exists (handler_of k),
    (fun cause => mkJSONResponse (fst (spec_table k))
                    (model_dump dump_NoneType (handler_envelope k cause))).
  split; [apply lookup_handler_kind|].
  split.
  - intros r e. apply handler_normal_form.
  - intros r1 r2 e. rewrite !handler_normal_form. split; reflexivity.
Qed.

(* ================================================================== *)
(** * Properties of the repository *)

Section RepositoryFacts.
Context {C : Collaborators}.

Lemma integrity_is_sqlalchemy (e : PyExc) :
  isinstance e IntegrityError = true -> isinstance e SQLAlchemyError = true.
Proof. destruct e as [[[]| | | | | | | |] a]; cbn; congruence. Qed.

Lemma sqlalchemy_is_not_validation (e : PyExc) :
  isinstance e SQLAlchemyError = true -> isinstance e ValidationError = false.
Proof. destruct e as [[[]| | | | | | | |] a]; cbn; congruence. Qed.

Lemma fmap_raise {A B : Type} (f : A -> B) (m : M A) (s s1 : St) (e : PyExc) :
  fmap f m s = (Raise e, s1) -> m s = (Raise e, s1).
Proof.
  unfold fmap. destruct (m s) as [[a|e'] s']; intros H; congruence.
Qed.

Lemma fmap_try_except {A B : Type} (f : A -> B) (m : M A)
    (handler : PyExc -> M A) (s s1 : St) (e : PyExc) :
  m s = (Raise e, s1) ->
  fmap f (try_except m handler) s = fmap f (handler e) s1.
Proof. intros H. unfold fmap, try_except. rewrite H. reflexivity. Qed.

(** What the two shared clauses do with an exception. *)
Lemma except_database_integrity {A : Type} (e : PyExc) (s : St) :
  isinstance e IntegrityError = true ->
  @except_database C A e s =
  (Raise (mkExc DatabaseIntegrityError [PyTuple (args e)]),
   mkSt (session_rollback (world s))
        (journal s ++
         [EvRollback;
          EvLogError "Erro de Integridade do Banco de Dados: %s" e;
          EvRaise (mkExc DatabaseIntegrityError [PyTuple (args e)])])).
Proof.
  intros H. unfold except_database. rewrite H.
  cbv [bind rollback call logger_error log raise_ world journal].
  rewrite <- !app_assoc. reflexivity.
Qed.

Lemma except_database_other {A : Type} (e : PyExc) (s : St) :
  isinstance e IntegrityError = false ->
  isinstance e SQLAlchemyError = true ->
  @except_database C A e s =
  (Raise (mkExc DatabaseError [PyTuple (args e)]),
   mkSt (session_rollback (world s))
        (journal s ++
         [EvRollback;
          EvLogError "Erro do Banco de Dados: %s" e;
          EvRaise (mkExc DatabaseError [PyTuple (args e)])])).
Proof.
  intros H1 H2. unfold except_database. rewrite H1, H2.
  cbv [bind rollback call logger_error log raise_ world journal].
  rewrite <- !app_assoc. reflexivity.
Qed.

Lemma except_database_propagates {A : Type} (e : PyExc) (s : St) :
  isinstance e SQLAlchemyError = false ->
  @except_database C A e s = (Raise e, s).
Proof.
  intros H. unfold except_database.
  destruct (isinstance e IntegrityError) eqn:E.
  - apply integrity_is_sqlalchemy in E. congruence.
  - rewrite H. reflexivity.
Qed.

Lemma create_except_validation (e : PyExc) (s : St) :
  isinstance e ValidationError = true ->
  create_except e s =
  (Raise (mkExc InternalServerError [PyStr parsing_message; PyTuple (args e)]),
   mkSt (world s)
        (journal s ++
         [EvRaise (mkExc InternalServerError
                     [PyStr parsing_message; PyTuple (args e)])])).
Proof. intros H. unfold create_except. rewrite H. reflexivity. Qed.

Lemma create_except_database (e : PyExc) (s : St) :
  isinstance e ValidationError = false ->
  create_except e s = except_database e s.
Proof. intros H. unfold create_except. rewrite H. reflexivity. Qed.

Lemma fmap_except_database {A B : Type} (f : A -> B) (e : PyExc) :
  forall s, fmap f (@except_database C A e) s = @except_database C B e s.
Proof.
  intros s. unfold except_database.
  destruct (isinstance e IntegrityError);
    [|destruct (isinstance e SQLAlchemyError)]; reflexivity.
Qed.

Lemma invoke_after_raise (self : SQLAlchemyRepository) (op : Op)
    (s s1 : St) (e : PyExc) :
  try_block self op s = (Raise e, s1) ->
  invoke self op s = except_clauses op e s1.
Proof.
  destruct op; cbn [try_block invoke except_clauses]; intros H;
    apply fmap_raise in H;
    unfold get, get_multi, create, update, delete;
    rewrite (fmap_try_except _ _ _ _ _ _ H);
    try apply fmap_except_database; reflexivity.
Qed.

Lemma invoke_after_return (self : SQLAlchemyRepository) (op : Op)
    (s s1 : St) (v : RetVal) :
  try_block self op s = (Ok v, s1) -> invoke self op s = (Ok v, s1).
Proof.
  destruct op; cbn [try_block invoke];
    unfold get, get_multi, create, update, delete, fmap, try_except;
    intros H;
    match goal with
    | H : context [match ?m s with _ => _ end] |- _ =>
      destruct (m s) as [[a|e'] s']
    end; congruence.
Qed.

Lemma except_clauses_sqlalchemy (op : Op) (e : PyExc) (s : St) :
  isinstance e SQLAlchemyError = true ->
  except_clauses op e s = except_database e s.
Proof.
  intros H. destruct op; try reflexivity.
  cbn [except_clauses]. unfold fmap.
  rewrite create_except_database by (apply sqlalchemy_is_not_validation, H).
  change (fmap RetObj (except_database e) s = except_database e s).
  apply fmap_except_database.
Qed.

Lemma queries_app (j1 j2 : list Event) :
  queries (j1 ++ j2) = (queries j1 ++ queries j2)%list.
Proof.
  induction j1 as [|ev j1 IH]; [reflexivity|].
  destruct ev; cbn; rewrite IH; reflexivity.
Qed.

Lemma rollbacks_app (j1 j2 : list Event) :
  rollbacks (j1 ++ j2) = (rollbacks j1 + rollbacks j2)%nat.
Proof.
  induction j1 as [|ev j1 IH]; [reflexivity|].
  destruct ev; cbn; rewrite IH; reflexivity.
Qed.

Lemma except_database_queries {A : Type} (e : PyExc) (s : St) :
  queries (journal (snd (@except_database C A e s))) = queries (journal s).
Proof.
  unfold except_database.
  destruct (isinstance e IntegrityError);
    [|destruct (isinstance e SQLAlchemyError)];
    cbv [bind rollback call logger_error log raise_ propagate world journal snd];
    rewrite ?queries_app; cbn; rewrite ?app_nil_r; reflexivity.
Qed.

End RepositoryFacts.

(** C4. When the model class raises a [ValidationError] on [obj_in],
    [create] raises [InternalServerError] with the fixed message and the
    cause's [args]; the only entries it adds to the journal are the call
    of the class and the [raise], the world is left as the failed call
    left it, and no rollback is made. *)
Theorem create_validation_error_no_rollback :
  forall (C : Collaborators) (self : SQLAlchemyRepository) (db_obj : Obj)
         (obj_in : list (string * pyval)) (s : St)
         (cls : Model) (e : PyExc) (w1 : W),
    self_model_type self = Some cls ->
    model_new cls obj_in (world s) = (Raise e, w1) ->
    isinstance e ValidationError = true ->
    let raised :=
      mkExc InternalServerError [PyStr parsing_message; PyTuple (args e)] in
    create self db_obj obj_in s =
      (Raise raised,
       mkSt w1 (journal s ++ [EvModel (Some cls) obj_in; EvRaise raised])) /\
    rollbacks (journal (snd (create self db_obj obj_in s)))
    = rollbacks (journal s).
Proof.
  intros C self db_obj obj_in s cls e w1 Hcls Hnew Hval raised.
  assert (Hrun : create self db_obj obj_in s =
      (Raise raised,
       mkSt w1 (journal s ++ [EvModel (Some cls) obj_in; EvRaise raised]))).
  { unfold create, try_except, create_try, construct, bind, call.
    rewrite Hcls, Hnew. rewrite create_except_validation by exact Hval.
    cbn [world journal]. rewrite <- app_assoc. reflexivity. }
  split; [exact Hrun|].
  rewrite Hrun. cbn [snd journal]. rewrite rollbacks_app. cbn. lia.
Qed.

Lemma create_validation_error_no_rollback_witness :
  create Demo.users 7%nat [("id", PyInt 1)] Demo.with_ann =
    (Raise (mkExc InternalServerError
              [PyStr parsing_message; PyTuple [PyStr "Field required"]]),
     mkSt (world Demo.with_ann)
       (journal Demo.with_ann ++
        [@EvModel Demo.session (Some "users") [("id", PyInt 1)];
         EvRaise (mkExc InternalServerError
                    [PyStr parsing_message;
                     PyTuple [PyStr "Field required"]])])) /\
  rollbacks (journal (snd (create Demo.users 7%nat [("id", PyInt 1)]
                             Demo.with_ann)))
  = rollbacks (journal Demo.with_ann).
Proof.
  exact (create_validation_error_no_rollback Demo.session Demo.users 7%nat
           [("id", PyInt 1)] Demo.with_ann "users" Demo.field_required
           (world Demo.with_ann) eq_refl eq_refl eq_refl).
Defined.

(** C5. In each of the five methods, when the statements under [try:]
    raise [e]: an [IntegrityError] makes the method raise
    [DatabaseIntegrityError(e.args)]; any other [SQLAlchemyError] makes it
    raise [DatabaseError(e.args)]; and an exception that is no
    [SQLAlchemyError] is given neither class: it leaves the method as it
    is, but for the [ValidationError] clause of [create]. *)
Theorem storage_failures_are_classified :
  forall (C : Collaborators) (self : SQLAlchemyRepository) (op : Op)
         (s s1 : St) (e : PyExc),
    try_block self op s = (Raise e, s1) ->
    (isinstance e IntegrityError = true ->
     fst (invoke self op s)
     = Raise (mkExc DatabaseIntegrityError [PyTuple (args e)])) /\
    (isinstance e IntegrityError = false ->
     isinstance e SQLAlchemyError = true ->
     fst (invoke self op s)
     = Raise (mkExc DatabaseError [PyTuple (args e)])) /\
    (isinstance e SQLAlchemyError = false ->
     fst (invoke self op s)
     = if is_create op && isinstance e ValidationError
       then Raise (mkExc InternalServerError
                     [PyStr parsing_message; PyTuple (args e)])
       else Raise e).
Proof.
  intros C self op s s1 e Htry.
  rewrite (invoke_after_raise _ _ _ _ _ Htry).
  split; [|split].
  - intros Hi.
    rewrite except_clauses_sqlalchemy by (apply integrity_is_sqlalchemy, Hi).
    rewrite except_database_integrity by exact Hi. reflexivity.
  - intros Hi Hs.
    rewrite except_clauses_sqlalchemy by exact Hs.
    rewrite except_database_other by assumption. reflexivity.
  - intros Hs.
    destruct op; cbn [except_clauses is_create andb];
      try (rewrite except_database_propagates by exact Hs; reflexivity).
    unfold fmap. destruct (isinstance e ValidationError) eqn:Hv.
    + rewrite create_except_validation by exact Hv. reflexivity.
    + rewrite create_except_database by exact Hv.
      rewrite except_database_propagates by exact Hs. reflexivity.
Qed.

Lemma storage_failures_are_classified_witness :
  fst (invoke Demo.users Demo.create_bob Demo.with_ann)
  = Raise (mkExc DatabaseIntegrityError
             [PyTuple [PyStr "UNIQUE constraint failed: users.id"]]) /\
  fst (invoke Demo.unbound Demo.get_nope Demo.with_ann)
  = Raise (mkExc DatabaseError [PyTuple [PyStr "no such table"]]) /\
  fst (invoke Demo.users Demo.update_age Demo.with_ann)
  = Raise (mkExc AttributeError [PyStr "age"]).
Proof.
  split; [|split].
  - refine (proj1 (storage_failures_are_classified Demo.session Demo.users
                     Demo.create_bob Demo.with_ann
                     (snd (try_block Demo.users Demo.create_bob
                             Demo.with_ann))
                     Demo.unique_failed _) _); reflexivity.
  - refine (proj1 (proj2 (storage_failures_are_classified Demo.session
                     Demo.unbound Demo.get_nope Demo.with_ann
                     (snd (try_block Demo.unbound Demo.get_nope
                             Demo.with_ann))
                     Demo.no_such_table _)) _ _); reflexivity.
  - refine (proj2 (proj2 (storage_failures_are_classified Demo.session
                     Demo.users Demo.update_age Demo.with_ann
                     (snd (try_block Demo.users Demo.update_age
                             Demo.with_ann))
                     (mkExc AttributeError [PyStr "age"]) _)) _);
      reflexivity.
Defined.

(** C6. In each of the five methods, when the statements under [try:]
    raise a [SQLAlchemyError], the method rolls back, logs, and only then
    raises the classified exception: these are the last three entries of
    the journal, in this order, the world is the one the rollback left,
    and if a rollback leaves no transaction open then none is open when
    the exception reaches the caller. *)
Theorem rollback_precedes_raise :
  forall (C : Collaborators) (self : SQLAlchemyRepository) (op : Op)
         (s s1 : St) (e : PyExc),
    try_block self op s = (Raise e, s1) ->
    isinstance e SQLAlchemyError = true ->
    exists (fmt : string) (e' : PyExc),
      invoke self op s =
        (Raise e',
         mkSt (session_rollback (world s1))
              (journal s1 ++ [EvRollback; EvLogError fmt e; EvRaise e'])) /\
      (exc_class e' = Kind DatabaseIntegrityError \/
       exc_class e' = Kind DatabaseError) /\
      ((forall w : W, in_transaction (session_rollback w) = false) ->
       in_transaction (world (snd (invoke self op s))) = false).
Proof.
  intros C self op s s1 e Htry Hs.
  rewrite (invoke_after_raise _ _ _ _ _ Htry).
  rewrite except_clauses_sqlalchemy by exact Hs.
  destruct (isinstance e IntegrityError) eqn:Hi.
  - rewrite except_database_integrity by exact Hi.
    eexists _, _. split; [reflexivity|]. split; [left; reflexivity|].
    intros Hlaw. apply Hlaw.
  - rewrite except_database_other by assumption.
    eexists _, _. split; [reflexivity|]. split; [right; reflexivity|].
    intros Hlaw. apply Hlaw.
Qed.

Lemma rollback_precedes_raise_witness :
  exists (fmt : string) (e' : PyExc),
    invoke Demo.unbound Demo.get_nope Demo.with_ann =
      (Raise e',
       mkSt (session_rollback
               (world (snd (try_block Demo.unbound
                              Demo.get_nope Demo.with_ann))))
            (journal (snd (try_block Demo.unbound
                             Demo.get_nope Demo.with_ann))
             ++ [EvRollback; EvLogError fmt Demo.no_such_table; EvRaise e']))
    /\ in_transaction
         (world (snd (invoke Demo.unbound Demo.get_nope
                        Demo.with_ann))) = false.
Proof.
  destruct (rollback_precedes_raise Demo.session Demo.unbound
              Demo.get_nope Demo.with_ann
              (snd (try_block Demo.unbound Demo.get_nope
                      Demo.with_ann))
              Demo.no_such_table eq_refl eq_refl)
    as [fmt [e' [Hrun [_ Hclosed]]]].
  exists fmt, e'. split; [exact Hrun|].
  apply Hclosed. intros w. reflexivity.
Defined.

Section QueryFacts.
Context {C : Collaborators}.

(** Split on the outcome of the next call on a collaborator. *)
Ltac run_call :=
  match goal with
  | |- context [match ?x with (_, _) => _ end] =>
    lazymatch x with
    | context [match _ with (_, _) => _ end] => fail
    | _ => destruct x as [[?|?] ?]
    end
  end; cbn [world journal].

Ltac close_queries :=
  rewrite ?except_database_queries; cbn [snd journal];
  rewrite ?queries_app; cbn; rewrite ?app_nil_r; reflexivity.

Lemma get_queries (self : SQLAlchemyRepository) (model_type : option Model)
    (id : pyval) (s : St) :
  queries (journal (snd (get self model_type id s)))
  = (queries (journal s) ++ [py_or (self_model_type self) model_type])%list.
Proof.
  unfold get, try_except, get_try, bind, call, ret.
  run_call; [|close_queries].
  run_call; [|close_queries].
  run_call; close_queries.
Qed.

Lemma get_multi_queries (self : SQLAlchemyRepository)
    (model_type : option Model) (skip limit : Z) (s : St) :
  queries (journal (snd (get_multi self model_type skip limit s)))
  = (queries (journal s) ++ [py_or (self_model_type self) model_type])%list.
Proof.
  unfold get_multi, try_except, get_multi_try, bind, call, ret.
  run_call; [|close_queries].
  run_call; [|close_queries].
  run_call; [|close_queries].
  run_call; close_queries.
Qed.

Lemma except_database_raises {A : Type} (e : PyExc) (s : St) :
  exists e' s', @except_database C A e s = (Raise e', s').
Proof.
  unfold except_database.
  destruct (isinstance e IntegrityError);
    [|destruct (isinstance e SQLAlchemyError)];
    eexists _, _; reflexivity.
Qed.

Lemma create_except_raises (e : PyExc) (s : St) :
  exists e' s', create_except e s = (Raise e', s').
Proof.
  unfold create_except. destruct (isinstance e ValidationError).
  - eexists _, _; reflexivity.
  - apply except_database_raises.
Qed.

(** The clauses of [create] never return: a run that ends in [Ok] did not
    go through them. *)
Ltac handler_raised H :=
  match type of H with
  | create_except ?e ?st = _ =>
    let E := fresh "E" in
    destruct (create_except_raises e st) as [? [? E]];
    rewrite E in H; discriminate H
  end.

Lemma create_returns (self : SQLAlchemyRepository) (db_obj : Obj)
    (obj_in : list (string * pyval)) (s s' : St) (o : Obj) :
  create self db_obj obj_in s = (Ok o, s') ->
  exists (cls : Model) (w1 : W),
    self_model_type self = Some cls /\
    model_new cls obj_in (world s) = (Ok o, w1) /\
    journal s' =
      (journal s ++
       [EvModel (Some cls) obj_in; EvAdd o; EvCommit; EvRefresh o])%list.
Proof.
  unfold create, try_except, create_try, construct, bind, call, ret.
  destruct (self_model_type self) as [cls|] eqn:Hcls;
    [|intros H; handler_raised H].
  destruct (model_new cls obj_in (world s)) as [[o1|e1] w1] eqn:Hnew;
    cbn [world journal]; [|intros H; handler_raised H].
  destruct (session_add o1 w1) as [[[]|e2] w2];
    cbn [world journal]; [|intros H; handler_raised H].
  destruct (session_commit w2) as [[[]|e3] w3];
    cbn [world journal]; [|intros H; handler_raised H].
  destruct (session_refresh o1 w3) as [[[]|e4] w4];
    cbn [world journal]; [|intros H; handler_raised H].
  intros H. injection H as Ho Hs. subst o s'.
  exists cls, w1. split; [reflexivity|]. split; [exact Hnew|].
  cbn [journal]. rewrite <- !app_assoc. reflexivity.
Qed.

End QueryFacts.

(** C9. [get] and [get_multi] issue exactly one query, against the class
    given at construction whenever there is one, and against the per-call
    argument only when there is none. *)
Theorem construction_time_model_type_wins :
  forall (C : Collaborators) (self : SQLAlchemyRepository)
         (model_type : option Model) (id : pyval) (skip limit : Z) (s : St),
    let queried :=
      match self_model_type self with
      | Some cls => Some cls
      | None => model_type
      end in
    queries (journal (snd (get self model_type id s)))
    = (queries (journal s) ++ [queried])%list /\
    queries (journal (snd (get_multi self model_type skip limit s)))
    = (queries (journal s) ++ [queried])%list.
Proof.
  intros C self model_type id skip limit s queried.
  rewrite get_queries, get_multi_queries.
  unfold queried, py_or. destruct (self_model_type self); split; reflexivity.
Qed.

(** C10. [create] never reads its [db_obj] argument: two calls that differ
    only in it have the same outcome, the same final world and the same
    journal; and the object a call returns is the one the repository's
    class built from [obj_in], after which it was added, committed and
    refreshed. *)
Theorem create_ignores_db_obj :
  forall (C : Collaborators) (self : SQLAlchemyRepository) (d1 d2 : Obj)
         (obj_in : list (string * pyval)) (s : St),
    create self d1 obj_in s = create self d2 obj_in s /\
    (forall (o : Obj) (s' : St),
       create self d1 obj_in s = (Ok o, s') ->
       exists (cls : Model) (w1 : W),
         self_model_type self = Some cls /\
         model_new cls obj_in (world s) = (Ok o, w1) /\
         journal s' =
           (journal s ++
            [EvModel (Some cls) obj_in; EvAdd o; EvCommit; EvRefresh o])%list).
Proof.
  intros C self d1 d2 obj_in s. split; [reflexivity|].
  intros o s'. apply create_returns.
Qed.

Lemma create_ignores_db_obj_witness :
  create Demo.users 0%nat Demo.ann Demo.start
  = create Demo.users 5%nat Demo.ann Demo.start /\
  exists (cls : string) (w1 : Demo.World),
    self_model_type Demo.users = Some cls /\
    Demo.d_new cls Demo.ann Demo.empty = (Ok 0%nat, w1) /\
    journal Demo.with_ann =
      [@EvModel Demo.session (Some cls) Demo.ann;
       @EvAdd Demo.session 0%nat; EvCommit; @EvRefresh Demo.session 0%nat].
Proof.
  destruct (create_ignores_db_obj Demo.session Demo.users 0%nat 5%nat
              Demo.ann Demo.start) as [Hsame Hbuilt].
  split; [exact Hsame|].
  exact (Hbuilt 0%nat Demo.with_ann eq_refl).
Defined.

(* ------------------------------------------------------------------ *)
(** ** The scenarios of §8, run on the in-memory session *)

(** Scenario A: a uniqueness violation during [create]. *)
Example scenario_A :
  option_map (fun r => (status_code r, error_type r, error_message r))
    (translate Demo.request
       (fst (invoke Demo.users Demo.create_bob Demo.with_ann)))
  = Some (400, Some (JStr "DatabaseIntegrityErr"),
          Some (JStr "Database Integrity error:('UNIQUE constraint failed: users.id',)")).
Proof. reflexivity. Qed.

(** Scenario C: [create] with a mapping the class rejects. *)
Example scenario_C :
  option_map (fun r => (status_code r, error_type r))
    (translate Demo.request
       (fst (create Demo.users 7%nat [("id", PyInt 1)] Demo.with_ann)))
  = Some (500, Some (JStr "UnknownErr")) /\
  rollbacks (journal (snd (create Demo.users 7%nat [("id", PyInt 1)]
                             Demo.with_ann))) = 0%nat.
Proof. split; reflexivity. Qed.

(** Scenario D: [get_multi] with [skip=0, limit=10] on an empty table. *)
Example scenario_D :
  fst (get_multi Demo.users None 0 10 Demo.start) = Ok [] /\
  data (success_envelope (Some (@nil nat))) = Some [].
Proof. split; reflexivity. Qed.

(* ================================================================== *)
(** * Further properties of the repository *)

Section TryBlocks.
Context {C : Collaborators}.

Lemma forallb_is_call_rollbacks (new : list Event) :
  forallb is_call new = true -> rollbacks new = 0%nat.
Proof.
  induction new as [|ev new IH]; [reflexivity|].
  cbn [forallb]. intros H. apply andb_prop in H as [Hev Hnew].
  destruct ev; cbn in *; try discriminate; auto.
Qed.

Lemma forallb_is_call_raises (new : list Event) :
  forallb is_call new = true -> raises new = [].
Proof.
  induction new as [|ev new IH]; [reflexivity|].
  cbn [forallb]. intros H. apply andb_prop in H as [Hev Hnew].
  destruct ev; cbn in *; try discriminate; auto.
Qed.

Lemma raises_app (j1 j2 : list Event) :
  raises (j1 ++ j2) = (raises j1 ++ raises j2)%list.
Proof.
  induction j1 as [|ev j1 IH]; [reflexivity|].
  destruct ev; cbn; rewrite IH; reflexivity.
Qed.

Lemma mutations_app (j1 j2 : list Event) :
  mutations (j1 ++ j2) = (mutations j1 + mutations j2)%nat.
Proof.
  induction j1 as [|ev j1 IH]; [reflexivity|].
  cbn. rewrite IH. lia.
Qed.

(** The loop of [update]: what it has journalled when it ends, and that
    it journals nothing but calls. *)
Lemma setattrs_calls (o : Obj) (items : list (string * pyval)) (s : St) :
  exists new : list Event,
    journal (snd (setattrs o items s)) = (journal s ++ new)%list /\
    forallb is_call new = true.
Proof.
  revert s. induction items as [|[k v] items IH]; intros s.
  - exists []. cbn. rewrite app_nil_r. split; reflexivity.
  - cbn [setattrs]. unfold bind at 1. unfold call.
    destruct (obj_setattr o k v (world s)) as [[[]|e] w1].
    + destruct (IH (mkSt w1 (journal s ++ [EvSetattr o k v])))
        as [new [Hj Hc]].
      exists (EvSetattr o k v :: new). rewrite Hj. cbn [journal].
      rewrite <- app_assoc. split; [reflexivity | exact Hc].
    + exists [EvSetattr o k v]. split; reflexivity.
Qed.

Lemma setattrs_returns (o : Obj) (items : list (string * pyval)) (s s1 : St) :
  setattrs o items s = (Ok tt, s1) ->
  journal s1 = (journal s ++ setattr_events o items)%list.
Proof.
  revert s. induction items as [|[k v] items IH]; intros s.
  - cbn. intros H. injection H as <-. rewrite app_nil_r. reflexivity.
  - cbn [setattrs]. unfold bind at 1. unfold call.
    destruct (obj_setattr o k v (world s)) as [[[]|e] w1]; [|discriminate].
    intros H. apply IH in H. rewrite H. cbn [journal setattr_events map fst snd].
    rewrite <- app_assoc. reflexivity.
Qed.

Lemma setattrs_app (o : Obj) (pre post : list (string * pyval)) (s : St) :
  setattrs o (pre ++ post) s
  = bind (setattrs o pre) (fun _ => setattrs o post) s.
Proof.
  revert s. induction pre as [|[k v] pre IH]; intros s; [reflexivity|].
  cbn [app setattrs]. unfold bind.
  destruct (call (EvSetattr o k v) (obj_setattr o k v) s) as [[[]|e] s1];
    [|reflexivity].
  rewrite IH. reflexivity.
Qed.

(** Split on the outcome of the next call on a collaborator. *)
Ltac next_call :=
  match goal with
  | |- context [match ?x with (_, _) => _ end] =>
    lazymatch x with
    | context [match _ with (_, _) => _ end] => fail
    | _ => destruct x as [[?|?] ?]
    end
  end; cbn [world journal fst snd].

Ltac only_calls :=
  eexists; split;
  [ rewrite <- ?app_assoc; cbn [app]; reflexivity | reflexivity ].

(** The statements under [try:] journal calls only: no rollback, no log,
    no [raise]. *)
Lemma try_block_calls (self : SQLAlchemyRepository) (op : Op) (s : St) :
  exists new : list Event,
    journal (snd (try_block self op s)) = (journal s ++ new)%list /\
    forallb is_call new = true.
Proof.
  destruct op as [mt id|mt skip limit|d obj_in|o obj_in|o];
    cbn [try_block].
  - unfold fmap, get_try, bind, call, ret.
    next_call; [|only_calls]. next_call; [|only_calls].
    next_call; only_calls.
  - unfold fmap, get_multi_try, bind, call, ret.
    next_call; [|only_calls]. next_call; [|only_calls].
    next_call; [|only_calls]. next_call; only_calls.
  - unfold fmap, create_try, construct, bind, call, ret.
    next_call; [|only_calls]. next_call; [|only_calls].
    next_call; [|only_calls]. next_call; only_calls.
  - unfold fmap, update_try. unfold bind at 1.
    destruct (setattrs_calls o obj_in s) as [new [Hj Hc]].
    destruct (setattrs o obj_in s) as [[[]|e] s1]; cbn [snd] in Hj.
    + unfold bind, call. rewrite Hj.
      next_call; [|eexists; split;
        [rewrite <- ?app_assoc; reflexivity
        |rewrite forallb_app, Hc; reflexivity]].
      next_call; [|eexists; split;
        [rewrite <- ?app_assoc; reflexivity
        |rewrite forallb_app, Hc; reflexivity]].
      next_call; eexists; (split;
        [rewrite <- ?app_assoc; reflexivity
        |rewrite forallb_app, Hc; reflexivity]).
    + exists new. cbn [snd]. split; assumption.
  - unfold fmap, delete_try, bind, call.
    next_call; [|only_calls]. next_call; only_calls.
Qed.

End TryBlocks.

Section ExceptClauses.
Context {C : Collaborators}.

(** The three ways out of the [except] clauses of a method. *)
Lemma except_clauses_cases (op : Op) (e : PyExc) (s1 : St) :
  (isinstance e SQLAlchemyError = true /\
   exists (fmt : string) (e' : PyExc),
     except_clauses op e s1 =
       (Raise e',
        mkSt (session_rollback (world s1))
             (journal s1 ++ [EvRollback; EvLogError fmt e; EvRaise e'])) /\
     (exc_class e' = Kind DatabaseIntegrityError \/
      exc_class e' = Kind DatabaseError)) \/
  (isinstance e SQLAlchemyError = false /\
   is_create op && isinstance e ValidationError = true /\
   except_clauses op e s1 =
     (Raise (mkExc InternalServerError
               [PyStr parsing_message; PyTuple (args e)]),
      mkSt (world s1)
           (journal s1 ++
            [EvRaise (mkExc InternalServerError
                        [PyStr parsing_message; PyTuple (args e)])]))) \/
  (isinstance e SQLAlchemyError = false /\
   is_create op && isinstance e ValidationError = false /\
   except_clauses op e s1 = (Raise e, s1)).
Proof.
  destruct (isinstance e SQLAlchemyError) eqn:Hs.
  - left. split; [reflexivity|].
    rewrite except_clauses_sqlalchemy by exact Hs.
    destruct (isinstance e IntegrityError) eqn:Hi.
    + rewrite except_database_integrity by exact Hi.
      eexists _, _. split; [reflexivity | left; reflexivity].
    + rewrite except_database_other by assumption.
      eexists _, _. split; [reflexivity | right; reflexivity].
  - right.
    destruct (is_create op && isinstance e ValidationError) eqn:Hv.
    + left. split; [reflexivity|]. split; [reflexivity|].
      apply andb_prop in Hv as [Hc Hv].
      destruct op; try discriminate Hc. cbn [except_clauses]. unfold fmap.
      rewrite create_except_validation by exact Hv. reflexivity.
    + right. split; [reflexivity|]. split; [reflexivity|].
      destruct op; cbn [except_clauses];
        try (apply except_database_propagates; exact Hs).
      cbn in Hv. unfold fmap.
      rewrite create_except_database by exact Hv.
      rewrite except_database_propagates by exact Hs. reflexivity.
Qed.

Lemma except_clauses_raise (op : Op) (e : PyExc) (s1 : St) :
  exists (e' : PyExc) (s' : St), except_clauses op e s1 = (Raise e', s').
Proof.
  destruct (except_clauses_cases op e s1)
    as [[_ [fmt [e' [H _]]]] | [[_ [_ H]] | [_ [_ H]]]];
    rewrite H; eexists _, _; reflexivity.
Qed.

End ExceptClauses.

(** X1. A method returns exactly when the statements under its [try:]
    run to the end, and then with their result and their final state: no
    [except] clause turns a failure into a result, and a success goes
    through no rollback, log or [raise]. *)
Theorem method_returns_iff_try_block_returns :
  forall (C : Collaborators) (self : SQLAlchemyRepository) (op : Op)
         (s s' : St) (v : RetVal),
    invoke self op s = (Ok v, s') <-> try_block self op s = (Ok v, s').
Proof.
  intros C self op s s' v. split.
  - destruct (try_block self op s) as [[v1|e] s1] eqn:Htry.
    + rewrite (invoke_after_return _ _ _ _ _ Htry). exact (fun H => H).
    + rewrite (invoke_after_raise _ _ _ _ _ Htry).
      destruct (except_clauses_raise op e s1) as [e' [s2 E]].
      rewrite E. discriminate.
  - apply invoke_after_return.
Qed.

Lemma method_returns_iff_try_block_returns_witness :
  try_block Demo.users Demo.create_ann Demo.start
  = (Ok (@RetObj Demo.session 0%nat), Demo.with_ann).
Proof.
  exact (proj1 (method_returns_iff_try_block_returns Demo.session Demo.users
                  Demo.create_ann Demo.start Demo.with_ann
                  (@RetObj Demo.session 0%nat))
               eq_refl).
Defined.

(** X2. An exception raised under [try:] that is no [SQLAlchemyError]
    (and, in [create], no [ValidationError]) leaves the method as it is, in
    the very state the failing statement left: nothing is rolled back,
    nothing is logged. *)
Theorem unclassified_exception_passes_through :
  forall (C : Collaborators) (self : SQLAlchemyRepository) (op : Op)
         (s s1 : St) (e : PyExc),
    try_block self op s = (Raise e, s1) ->
    isinstance e SQLAlchemyError = false ->
    is_create op && isinstance e ValidationError = false ->
    invoke self op s = (Raise e, s1).
Proof.
  intros C self op s s1 e Htry Hs Hv.
  rewrite (invoke_after_raise _ _ _ _ _ Htry).
  destruct (except_clauses_cases op e s1)
    as [[Hs' _] | [[_ [Hv' _]] | [_ [_ H]]]]; congruence.
Qed.

Lemma unclassified_exception_passes_through_witness :
  invoke Demo.users Demo.update_age Demo.with_ann
  = (Raise (mkExc AttributeError [PyStr "age"]),
     snd (try_block Demo.users Demo.update_age Demo.with_ann)) /\
  in_transaction
    (world (snd (invoke Demo.users Demo.update_age Demo.with_ann))) = true.
Proof.
  split; [|reflexivity].
  exact (unclassified_exception_passes_through Demo.session Demo.users
           Demo.update_age Demo.with_ann
           (snd (try_block Demo.users Demo.update_age Demo.with_ann))
           (mkExc AttributeError [PyStr "age"]) eq_refl eq_refl eq_refl).
Defined.

(** X3. A call of a method rolls back once if the statements under its
    [try:] raise a [SQLAlchemyError], and not at all otherwise. *)
Theorem rollback_exactly_on_sqlalchemy_error :
  forall (C : Collaborators) (self : SQLAlchemyRepository) (op : Op) (s : St),
    rollbacks (journal (snd (invoke self op s)))
    = (rollbacks (journal s) +
       match fst (try_block self op s) with
       | Raise e => if isinstance e SQLAlchemyError then 1 else 0
       | Ok _ => 0
       end)%nat.
Proof.
  intros C self op s.
  destruct (try_block_calls self op s) as [new [Hj Hc]].
  apply forallb_is_call_rollbacks in Hc.
  destruct (try_block self op s) as [[v|e] s1] eqn:Htry; cbn [fst snd] in *.
  - rewrite (invoke_after_return _ _ _ _ _ Htry). cbn [snd].
    rewrite Hj, rollbacks_app. lia.
  - rewrite (invoke_after_raise _ _ _ _ _ Htry).
    destruct (except_clauses_cases op e s1)
      as [[Hs [fmt [e' [H _]]]] | [[Hs [_ H]] | [Hs [_ H]]]];
      rewrite H, Hs; cbn [snd journal];
      rewrite ?rollbacks_app, Hj, rollbacks_app; cbn; lia.
Qed.

(** X4. A call of a method executes at most one [raise] statement; the
    exception it raises there is the one the caller gets, and is a
    [DatabaseIntegrityError], a [DatabaseError] or, in [create] only, an
    [InternalServerError]: never one of the other three kinds. *)
Theorem raise_statements_of_a_method :
  forall (C : Collaborators) (self : SQLAlchemyRepository) (op : Op) (s : St),
  exists r : list PyExc,
    raises (journal (snd (invoke self op s)))
    = (raises (journal s) ++ r)%list /\
    (r = [] \/
     exists e' : PyExc,
       r = [e'] /\
       fst (invoke self op s) = Raise e' /\
       (exc_class e' = Kind DatabaseIntegrityError \/
        exc_class e' = Kind DatabaseError \/
        (exc_class e' = Kind InternalServerError /\ is_create op = true))).
Proof.
  intros C self op s.
  destruct (try_block_calls self op s) as [new [Hj Hc]].
  apply forallb_is_call_raises in Hc.
  destruct (try_block self op s) as [[v|e] s1] eqn:Htry; cbn [fst snd] in *.
  - rewrite (invoke_after_return _ _ _ _ _ Htry). cbn [snd].
    exists []. rewrite Hj, raises_app, Hc. split; [reflexivity | left; reflexivity].
  - rewrite (invoke_after_raise _ _ _ _ _ Htry).
    destruct (except_clauses_cases op e s1)
      as [[Hs [fmt [e' [H Hk]]]] | [[Hs [Hv H]] | [Hs [_ H]]]];
      rewrite H; cbn [fst snd journal].
    + exists [e']. rewrite raises_app, Hj, raises_app, Hc, app_nil_r.
      split; [reflexivity|]. right. exists e'.
      split; [reflexivity|]. split; [reflexivity|].
      destruct Hk; [left | right; left]; assumption.
    + eexists [_]. rewrite raises_app, Hj, raises_app, Hc, app_nil_r.
      split; [reflexivity|]. right. eexists.
      split; [reflexivity|]. split; [reflexivity|].
      right; right. split; [reflexivity|].
      apply andb_prop in Hv. apply Hv.
    + exists []. rewrite Hj, raises_app, Hc.
      split; [reflexivity | left; reflexivity].
Qed.

(** Split on the outcome of the next call on a collaborator, keeping the
    equation. *)
Ltac step_call H :=
  match goal with
  | |- context [match ?x with (_, _) => _ end] =>
    lazymatch x with
    | context [match _ with (_, _) => _ end] => fail
    | _ => destruct x as [[?|?] ?] eqn:H
    end
  end; cbn [world journal fst snd].

(** The shared clauses never return: a run that ends in [Ok] did not go
    through them. *)
Ltac clause_raised H :=
  match type of H with
  | @except_database ?C ?A ?e ?st = _ =>
    let E := fresh "E" in
    destruct (@except_database_raises C A e st) as [? [? E]];
    rewrite E in H; discriminate H
  end.

Section MethodFacts.
Context {C : Collaborators}.

Lemma except_database_mutations {A : Type} (e : PyExc) (s : St) :
  mutations (journal (snd (@except_database C A e s)))
  = mutations (journal s).
Proof.
  unfold except_database.
  destruct (isinstance e IntegrityError);
    [|destruct (isinstance e SQLAlchemyError)];
    cbv [bind rollback call logger_error log raise_ propagate world journal snd];
    rewrite ?mutations_app; cbn; lia.
Qed.

Ltac close_mutations :=
  rewrite ?except_database_mutations; cbn [snd journal];
  rewrite ?mutations_app; cbn; lia.

Lemma get_mutations (self : SQLAlchemyRepository) (model_type : option Model)
    (id : pyval) (s : St) :
  mutations (journal (snd (get self model_type id s)))
  = mutations (journal s).
Proof.
  unfold get, try_except, get_try, bind, call, ret.
  step_call H0; [|close_mutations].
  step_call H1; [|close_mutations].
  step_call H2; close_mutations.
Qed.

Lemma get_multi_mutations (self : SQLAlchemyRepository)
    (model_type : option Model) (skip limit : Z) (s : St) :
  mutations (journal (snd (get_multi self model_type skip limit s)))
  = mutations (journal s).
Proof.
  unfold get_multi, try_except, get_multi_try, bind, call, ret.
  step_call H0; [|close_mutations].
  step_call H1; [|close_mutations].
  step_call H2; [|close_mutations].
  step_call H3; close_mutations.
Qed.

End MethodFacts.

(** X5. [get] and [get_multi] only read: whatever the session answers,
    they never build an object, assign an attribute, add, commit, refresh
    or delete. *)
Theorem reads_never_write :
  forall (C : Collaborators) (self : SQLAlchemyRepository)
         (model_type : option Model) (id : pyval) (skip limit : Z) (s : St),
    mutations (journal (snd (get self model_type id s)))
    = mutations (journal s) /\
    mutations (journal (snd (get_multi self model_type skip limit s)))
    = mutations (journal s).
Proof.
  intros. split; [apply get_mutations | apply get_multi_mutations].
Qed.

(** X6. [get] returns exactly when the three calls [query], [filter_by]
    and [first] return, and then with the value of [first()] unchanged,
    [None] included: a row that is not there is no error, and nothing is
    raised or rolled back for it. *)
Theorem get_returns_what_first_returns :
  forall (C : Collaborators) (self : SQLAlchemyRepository)
         (model_type : option Model) (id : pyval) (s s' : St)
         (r : option Obj),
    get self model_type id s = (Ok r, s') <->
    exists (q0 q1 : Query) (w0 w1 w2 : W),
      session_query (py_or (self_model_type self) model_type) (world s)
      = (Ok q0, w0) /\
      query_filter_by q0 id w0 = (Ok q1, w1) /\
      query_first q1 w1 = (Ok r, w2) /\
      s' = mkSt w2
             (journal s ++
              [EvQuery (py_or (self_model_type self) model_type);
               EvFilterBy q0 id; EvFirst q1]).
Proof.
  intros C self model_type id s s' r. split.
  - unfold get, try_except, get_try, bind, call, ret.
    step_call H0; [|intros H; clause_raised H].
    step_call H1; [|intros H; clause_raised H].
    step_call H2; [|intros H; clause_raised H].
    intros H. injection H as Hr Hs. subst.
    eexists _, _, _, _, _. split; [reflexivity|].
    split; [eassumption|]. split; [eassumption|].
    rewrite <- !app_assoc. reflexivity.
  - intros [q0 [q1 [w0 [w1 [w2 [H0 [H1 [H2 Hs]]]]]]]]. subst s'.
    unfold get, try_except, get_try, bind, call, ret.
    rewrite H0. cbn [world journal]. rewrite H1. cbn [world journal].
    rewrite H2. rewrite <- !app_assoc. reflexivity.
Qed.

Lemma get_returns_what_first_returns_witness :
  get Demo.users None (PyInt 5) Demo.with_ann
  = (Ok None,
     snd (get Demo.users None (PyInt 5) Demo.with_ann)) /\
  exists (q0 q1 : Demo.Q) (w0 w1 w2 : Demo.World),
    Demo.d_first q1 w1 = (Ok None, w2).
Proof.
  split; [reflexivity|].
  destruct (proj1 (get_returns_what_first_returns Demo.session Demo.users
                     None (PyInt 5) Demo.with_ann
                     (snd (get Demo.users None (PyInt 5) Demo.with_ann))
                     None) eq_refl)
    as [q0 [q1 [w0 [w1 [w2 [_ [_ [H _]]]]]]]].
  exists q0, q1, w0, w1, w2. exact H.
Defined.

(** X7. [get_multi] returns exactly when [query], [offset], [limit] and
    [all] return, and then with the list of [all()]; [skip] and [limit]
    reach the query as given, offset first, with no check on either. *)
Theorem get_multi_returns_what_all_returns :
  forall (C : Collaborators) (self : SQLAlchemyRepository)
         (model_type : option Model) (skip limit : Z) (s s' : St)
         (r : list Obj),
    get_multi self model_type skip limit s = (Ok r, s') <->
    exists (q0 q1 q2 : Query) (w0 w1 w2 w3 : W),
      session_query (py_or (self_model_type self) model_type) (world s)
      = (Ok q0, w0) /\
      query_offset q0 skip w0 = (Ok q1, w1) /\
      query_limit q1 limit w1 = (Ok q2, w2) /\
      query_all q2 w2 = (Ok r, w3) /\
      s' = mkSt w3
             (journal s ++
              [EvQuery (py_or (self_model_type self) model_type);
               EvOffset q0 skip; EvLimit q1 limit; EvAll q2]).
Proof.
  intros C self model_type skip limit s s' r. split.
  - unfold get_multi, try_except, get_multi_try, bind, call, ret.
    step_call H0; [|intros H; clause_raised H].
    step_call H1; [|intros H; clause_raised H].
    step_call H2; [|intros H; clause_raised H].
    step_call H3; [|intros H; clause_raised H].
    intros H. injection H as Hr Hs. subst.
    eexists _, _, _, _, _, _, _. split; [reflexivity|].
    split; [eassumption|]. split; [eassumption|]. split; [eassumption|].
    rewrite <- !app_assoc. reflexivity.
  - intros [q0 [q1 [q2 [w0 [w1 [w2 [w3 [H0 [H1 [H2 [H3 Hs]]]]]]]]]]].
    subst s'.
    unfold get_multi, try_except, get_multi_try, bind, call, ret.
    rewrite H0. cbn [world journal]. rewrite H1. cbn [world journal].
    rewrite H2. cbn [world journal]. rewrite H3.
    rewrite <- !app_assoc. reflexivity.
Qed.

Lemma get_multi_returns_what_all_returns_witness :
  exists (q1 q2 : Demo.Q) (w1 w2 : Demo.World),
    @query_limit Demo.session q1 (-3) w1 = (Ok q2, w2) /\
    fst (get_multi Demo.users None 1 (-3) Demo.with_ann) = Ok [].
Proof.
  destruct (proj1 (get_multi_returns_what_all_returns Demo.session Demo.users
                     None 1 (-3) Demo.with_ann
                     (snd (get_multi Demo.users None 1 (-3) Demo.with_ann))
                     []) eq_refl)
    as [q0 [q1 [q2 [w0 [w1 [w2 [w3 [_ [_ [H _]]]]]]]]]].
  exists q1, q2, w1, w2. split; [exact H | reflexivity].
Defined.

(** X8. When [update] returns, every key of the mapping has been assigned
    once, in the order of the mapping, and only then was the object added,
    committed and refreshed, in this order; with the empty mapping these
    three calls are all [update] makes. *)
Theorem update_returns_after_assigning_all :
  forall (C : Collaborators) (self : SQLAlchemyRepository) (db_obj : Obj)
         (obj_in : list (string * pyval)) (s s' : St),
    update self db_obj obj_in s = (Ok tt, s') ->
    journal s' =
      (journal s ++ setattr_events db_obj obj_in ++
       [EvAdd db_obj; EvCommit; EvRefresh db_obj])%list /\
    exists w3 : W, session_refresh db_obj w3 = (Ok tt, world s').
Proof.
  intros C self db_obj obj_in s s'.
  unfold update, try_except, update_try. unfold bind at 1.
  destruct (setattrs db_obj obj_in s) as [[[]|e] s1] eqn:Hset;
    [|intros H; clause_raised H].
  apply setattrs_returns in Hset.
  unfold bind, call.
  step_call H1; [|intros H; clause_raised H].
  step_call H2; [|intros H; clause_raised H].
  step_call H3; [|intros H; clause_raised H].
  intros H. injection H as Hs. subst s'. cbn [journal world].
  rewrite Hset, <- !app_assoc.
  split; [reflexivity|].
  repeat match goal with u : unit |- _ => destruct u end.
  eexists. exact H3.
Qed.

Lemma update_returns_after_assigning_all_witness :
  journal (snd (update Demo.users 0%nat Demo.rename Demo.with_ann)) =
    (journal Demo.with_ann ++
     [@EvSetattr Demo.session 0%nat "name" (PyStr "anna");
      @EvSetattr Demo.session 0%nat "id" (PyInt 2);
      @EvAdd Demo.session 0%nat; EvCommit; @EvRefresh Demo.session 0%nat])%list.
Proof.
  exact (proj1 (update_returns_after_assigning_all Demo.session Demo.users
                  0%nat Demo.rename Demo.with_ann
                  (snd (update Demo.users 0%nat Demo.rename Demo.with_ann))
                  eq_refl)).
Defined.

(** X9. [update] stops at the first assignment that raises: the keys
    after it are not assigned, the object is neither added nor committed,
    and the exception goes to the [except] clauses in the state that
    assignment left.  If it is no [SQLAlchemyError] it reaches the caller
    with the earlier assignments still made and nothing rolled back. *)
Theorem update_stops_at_first_failing_assignment :
  forall (C : Collaborators) (self : SQLAlchemyRepository) (db_obj : Obj)
         (pre post : list (string * pyval)) (key : string) (value : pyval)
         (s s1 : St) (e : PyExc) (w2 : W),
    setattrs db_obj pre s = (Ok tt, s1) ->
    obj_setattr db_obj key value (world s1) = (Raise e, w2) ->
    update self db_obj (pre ++ (key, value) :: post) s
    = except_database e
        (mkSt w2 (journal s1 ++ [EvSetattr db_obj key value])) /\
    (isinstance e SQLAlchemyError = false ->
     update self db_obj (pre ++ (key, value) :: post) s
     = (Raise e,
        mkSt w2 (journal s ++ setattr_events db_obj pre ++
                 [EvSetattr db_obj key value]))).
Proof.
  intros C self db_obj pre post key value s s1 e w2 Hpre Hset.
  assert (Hrun : update self db_obj (pre ++ (key, value) :: post) s
    = except_database e
        (mkSt w2 (journal s1 ++ [EvSetattr db_obj key value]))).
  { unfold update, try_except, update_try. unfold bind at 1.
    rewrite setattrs_app. unfold bind at 1. rewrite Hpre.
    cbn [setattrs]. unfold bind at 1. unfold call. rewrite Hset.
    reflexivity. }
  split; [exact Hrun|].
  intros Hs. rewrite Hrun, except_database_propagates by exact Hs.
  rewrite (setattrs_returns _ _ _ _ Hpre), <- app_assoc. reflexivity.
Qed.

Lemma update_stops_at_first_failing_assignment_witness :
  update Demo.users 0%nat Demo.rename_badly Demo.with_ann
  = (Raise (mkExc AttributeError [PyStr "age"]),
     @mkSt Demo.session
       (Demo.mkWorld true [Demo.mkRow 1 "anna"] [0%nat] [] [])
          (journal Demo.with_ann ++
           [@EvSetattr Demo.session 0%nat "name" (PyStr "anna");
            @EvSetattr Demo.session 0%nat "age" (PyInt 30)])).
Proof.
  refine (proj2 (update_stops_at_first_failing_assignment Demo.session
                   Demo.users 0%nat [("name", PyStr "anna")]
                   [("id", PyInt 2)] "age" (PyInt 30) Demo.with_ann
                   (snd (@setattrs Demo.session 0%nat
                           [("name", PyStr "anna")] Demo.with_ann))
                   (mkExc AttributeError [PyStr "age"])
                   (Demo.mkWorld true [Demo.mkRow 1 "anna"] [0%nat] [] [])
                   _ _) _); reflexivity.
Defined.

(** X10. [delete] commits only after [session.delete] has returned: when
    that call raises, [commit] is not called and the exception goes to the
    [except] clauses; and [delete] returns exactly when both calls return,
    having made these two calls and no other. *)
Theorem delete_commits_only_after_delete :
  forall (C : Collaborators) (self : SQLAlchemyRepository) (db_obj : Obj)
         (s : St),
    (forall (e : PyExc) (w1 : W),
       session_delete db_obj (world s) = (Raise e, w1) ->
       delete self db_obj s
       = except_database e (mkSt w1 (journal s ++ [EvDelete db_obj]))) /\
    (forall s' : St,
       delete self db_obj s = (Ok tt, s') <->
       exists w1 w2 : W,
         session_delete db_obj (world s) = (Ok tt, w1) /\
         session_commit w1 = (Ok tt, w2) /\
         s' = mkSt w2 (journal s ++ [EvDelete db_obj; EvCommit])).
Proof.
  intros C self db_obj s. split.
  - intros e w1 H.
    unfold delete, try_except, delete_try, bind, call. rewrite H.
    reflexivity.
  - intros s'. split.
    + unfold delete, try_except, delete_try, bind, call.
      step_call H1; [|intros H; clause_raised H].
      step_call H2; [|intros H; clause_raised H].
      intros H. injection H as Hs. subst s'.
      repeat match goal with u : unit |- _ => destruct u end.
      eexists _, _. split; [reflexivity|]. split; [eassumption|].
      rewrite <- !app_assoc. reflexivity.
    + intros [w1 [w2 [H1 [H2 Hs]]]]. subst s'.
      unfold delete, try_except, delete_try, bind, call.
      rewrite H1. cbn [world journal]. rewrite H2.
      rewrite <- !app_assoc. reflexivity.
Qed.

Lemma delete_commits_only_after_delete_witness :
  exists w1 w2 : Demo.World,
    Demo.d_delete 0%nat (world Demo.with_ann) = (Ok tt, w1) /\
    Demo.d_commit w1 = (Ok tt, w2) /\
    Demo.table w2 = [].
Proof.
  destruct (proj1 (proj2 (delete_commits_only_after_delete Demo.session
                            Demo.users 0%nat Demo.with_ann)
                     (snd (delete Demo.users 0%nat Demo.with_ann)))
              eq_refl)
    as [w1 [w2 [H1 [H2 Hs]]]].
  exists w1, w2. split; [exact H1|]. split; [exact H2|].
  apply (f_equal world) in Hs. cbn [world] in Hs. rewrite <- Hs.
  reflexivity.
Defined.

(** X11. A repository built with [model_type=None] cannot create: the
    call of [None] raises [TypeError], which no clause of [create]
    catches; the session is not touched and nothing is rolled back. *)
Theorem create_without_model_type :
  forall (C : Collaborators) (self : SQLAlchemyRepository) (db_obj : Obj)
         (obj_in : list (string * pyval)) (s : St),
    self_model_type self = None ->
    exists e : PyExc,
      exc_class e = TypeError /\
      create self db_obj obj_in s
      = (Raise e, mkSt (world s) (journal s ++ [EvModel None obj_in])).
Proof.
  intros C self db_obj obj_in s Hnone.
  eexists. split; [|unfold create, try_except, create_try, construct, bind,
                     call; rewrite Hnone; reflexivity].
  reflexivity.
Qed.

Lemma create_without_model_type_witness :
  exists e : PyExc,
    exc_class e = TypeError /\
    create Demo.unbound 0%nat Demo.ann Demo.start
    = (Raise e,
       @mkSt Demo.session Demo.empty [EvModel None Demo.ann]).
Proof.
  exact (create_without_model_type Demo.session Demo.unbound 0%nat Demo.ann
           Demo.start eq_refl).
Defined.

(* ================================================================== *)
(** * Further properties of the handlers *)

Lemma table_entries (c : PyClass) (h : Handler) :
  In (c, h) exception_to_handler_list ->
  exists k : ErrorKind, c = Kind k /\ h = handler_of k.
Proof.
  intros H. cbn in H.
  repeat (destruct H as [H|H];
          [injection H as <- <-; eexists; split; reflexivity|]).
  destruct H.
Qed.

Lemma table_has_kind (k : ErrorKind) :
  In (Kind k, handler_of k) exception_to_handler_list.
Proof. destruct k; cbn; tauto. Qed.

Lemma append_cancel (p a b : string) : p ++ a = p ++ b -> a = b.
Proof.
  induction p as [|c p IH]; cbn; [exact (fun H => H)|].
  intros H. injection H as H. apply IH, H.
Qed.

Lemma spec_message_inj (prefix c1 c2 : string) :
  spec_message prefix c1 = spec_message prefix c2 -> c1 = c2.
Proof.
  destruct c1 as [|x1 r1], c2 as [|x2 r2]; cbn [spec_message]; intros H.
  - reflexivity.
  - apply (f_equal String.length) in H.
    rewrite !append_length in H. cbn in H. lia.
  - apply (f_equal String.length) in H.
    rewrite !append_length in H. cbn in H. lia.
  - apply append_cancel in H. cbn in H. injection H as H1 H2. congruence.
Qed.

Lemma tuple_repr_nonempty (items : list string) :
  tuple_repr items <> EmptyString.
Proof. destruct items as [|x [|y items]]; cbn; discriminate. Qed.

(** X12. No error kind is a subclass of another: an exception of one kind
    is an instance of no other kind, so no handler of the table can catch
    an exception meant for another. *)
Theorem error_kinds_are_unrelated :
  forall j k : ErrorKind,
    issubclass (Kind j) (Kind k) = true <-> j = k.
Proof.
  intros j k. split.
  - destruct j, k; cbn; intros H; try reflexivity; discriminate H.
  - intros <-. destruct j; reflexivity.
Qed.

Lemma error_kinds_are_unrelated_witness :
  isinstance (mkExc DatabaseIntegrityError []) DatabaseError = false.
Proof.
  destruct (isinstance (mkExc DatabaseIntegrityError []) DatabaseError)
    eqn:E; [|reflexivity].
  discriminate (proj1 (error_kinds_are_unrelated DatabaseIntegrityError
                         DatabaseError) E).
Defined.

(** X13. A handler keeps [str(e)] whole: two responses of the same
    handler with the same [error.message] come from exceptions with the
    same [str()]; in particular an exception with text is never given the
    message of one without. *)
Theorem handler_message_determines_cause :
  forall (c : PyClass) (h : Handler),
    In (c, h) exception_to_handler_list ->
    forall (r1 r2 : Request) (e1 e2 : PyExc),
      error_message (h r1 e1) = error_message (h r2 e2) ->
      str_exc e1 = str_exc e2.
Proof.
  intros c h Hin r1 r2 e1 e2 H.
  destruct (table_entries c h Hin) as [k [_ ->]].
  rewrite !error_message_normal_form in H.
  injection H as H. apply spec_message_inj in H. exact H.
Qed.

Lemma handler_message_determines_cause_witness :
  str_exc (mkExc NotFoundError [PyInt 42])
  = str_exc (mkExc DatabaseError [PyStr "42"]).
Proof.
  exact (handler_message_determines_cause (Kind NotFoundError)
           not_found_exception_handler (or_intror (or_introl eq_refl))
           Demo.request Demo.request
           (mkExc NotFoundError [PyInt 42]) (mkExc DatabaseError [PyStr "42"])
           eq_refl).
Defined.

(** X14. The [error.type] of a response tells which handler of the table
    made it: two handlers that can give the same [type] are one entry. *)
Theorem handler_type_determines_kind :
  forall (c1 c2 : PyClass) (h1 h2 : Handler),
    In (c1, h1) exception_to_handler_list ->
    In (c2, h2) exception_to_handler_list ->
    forall (r1 r2 : Request) (e1 e2 : PyExc),
      error_type (h1 r1 e1) = error_type (h2 r2 e2) ->
      c1 = c2 /\ h1 = h2.
Proof.
  intros c1 c2 h1 h2 Hin1 Hin2 r1 r2 e1 e2 H.
  destruct (table_entries c1 h1 Hin1) as [j [-> ->]].
  destruct (table_entries c2 h2 Hin2) as [k [-> ->]].
  rewrite !handler_normal_form in H.
  destruct j, k; cbn in H; try discriminate H; split; reflexivity.
Qed.

Lemma handler_type_determines_kind_witness :
  Kind DuplicatedError = Kind DuplicatedError /\
  duplicated_exception_handler = duplicated_exception_handler.
Proof.
  exact (handler_type_determines_kind (Kind DuplicatedError)
           (Kind DuplicatedError) duplicated_exception_handler
           duplicated_exception_handler
           (or_intror (or_intror (or_introl eq_refl)))
           (or_intror (or_intror (or_introl eq_refl)))
           Demo.request Demo.request
           (mkExc DuplicatedError []) (mkExc DuplicatedError [PyStr "x"])
           eq_refl).
Defined.

(** X15. What a client sees of a storage failure.  The exception a method
    raises for a [SQLAlchemyError] has a handler in the table, which
    answers 400 with the kind's prefix, a colon and the [repr] of the
    tuple of the cause's [args]: the cause is wrapped in a one-element
    [args], so its text is never empty and the prefix never stands
    alone. *)
Theorem storage_failure_response :
  forall (C : Collaborators) (self : SQLAlchemyRepository) (op : Op)
         (s s1 : St) (e : PyExc),
    try_block self op s = (Raise e, s1) ->
    isinstance e SQLAlchemyError = true ->
    exists (e' : PyExc) (h : Handler),
      fst (invoke self op s) = Raise e' /\
      In (exc_class e', h) exception_to_handler_list /\
      forall req : Request,
        status_code (h req e') = 400 /\
        error_message (h req e') =
          Some (JStr ((if isinstance e IntegrityError
                       then "Database Integrity error"
                       else "Database error")
                      ++ ":" ++ tuple_repr (List.map Py.repr (args e)))).
Proof.
  intros C self op s s1 e Htry Hs.
  rewrite (invoke_after_raise _ _ _ _ _ Htry).
  rewrite except_clauses_sqlalchemy by exact Hs.
  destruct (isinstance e IntegrityError) eqn:Hi.
  - rewrite except_database_integrity by exact Hi.
    exists (mkExc DatabaseIntegrityError [PyTuple (args e)]),
           (handler_of DatabaseIntegrityError).
    split; [reflexivity|]. split; [apply table_has_kind|].
    intros req. split; [rewrite handler_normal_form; reflexivity|].
    rewrite error_message_normal_form.
    rewrite spec_message_nonempty by apply tuple_repr_nonempty.
    reflexivity.
  - rewrite except_database_other by assumption.
    exists (mkExc DatabaseError [PyTuple (args e)]),
           (handler_of DatabaseError).
    split; [reflexivity|]. split; [apply table_has_kind|].
    intros req. split; [rewrite handler_normal_form; reflexivity|].
    rewrite error_message_normal_form.
    rewrite spec_message_nonempty by apply tuple_repr_nonempty.
    reflexivity.
Qed.

Lemma storage_failure_response_witness :
  exists (e' : PyExc) (h : Handler),
    fst (invoke Demo.unbound Demo.get_nope Demo.with_ann) = Raise e' /\
    In (exc_class e', h) exception_to_handler_list /\
    forall req : Request,
      status_code (h req e') = 400 /\
      error_message (h req e')
      = Some (JStr "Database error:('no such table',)").
Proof.
  exact (storage_failure_response Demo.session Demo.unbound Demo.get_nope
           Demo.with_ann
           (snd (try_block Demo.unbound Demo.get_nope Demo.with_ann))
           Demo.no_such_table eq_refl eq_refl).
Defined.

(** X16. What a client sees of a rejected mapping.  The
    [InternalServerError] that [create] raises for a [ValidationError] has
    a handler in the table, which answers 500; its message is the prefix,
    a colon and the [repr] of the pair of the fixed text and the cause's
    [args]. *)
Theorem validation_failure_response :
  forall (C : Collaborators) (self : SQLAlchemyRepository) (db_obj : Obj)
         (obj_in : list (string * pyval)) (s : St)
         (cls : Model) (e : PyExc) (w1 : W),
    self_model_type self = Some cls ->
    model_new cls obj_in (world s) = (Raise e, w1) ->
    isinstance e ValidationError = true ->
    exists (e' : PyExc) (h : Handler),
      fst (create self db_obj obj_in s) = Raise e' /\
      In (exc_class e', h) exception_to_handler_list /\
      forall req : Request,
        status_code (h req e') = 500 /\
        error_message (h req e') =
          Some (JStr ("Unknown error:('" ++ parsing_message ++ "', "
                      ++ tuple_repr (List.map Py.repr (args e)) ++ ")")).
Proof.
  intros C self db_obj obj_in s cls e w1 Hcls Hnew Hval.
  exists (mkExc InternalServerError [PyStr parsing_message; PyTuple (args e)]),
         (handler_of InternalServerError).
  split.
  - unfold create, try_except, create_try, construct, bind, call.
    rewrite Hcls, Hnew. rewrite create_except_validation by exact Hval.
    reflexivity.
  - split; [apply table_has_kind|].
    intros req. split; [rewrite handler_normal_form; reflexivity|].
    rewrite error_message_normal_form. reflexivity.
Qed.

Lemma validation_failure_response_witness :
  exists (e' : PyExc) (h : Handler),
    fst (create Demo.users 7%nat [("id", PyInt 1)] Demo.with_ann) = Raise e' /\
    In (exc_class e', h) exception_to_handler_list /\
    forall req : Request,
      status_code (h req e') = 500 /\
      error_message (h req e')
      = Some (JStr ("Unknown error:('" ++ parsing_message
                    ++ "', ('Field required',))")).
Proof.
  exact (validation_failure_response Demo.session Demo.users 7%nat
           [("id", PyInt 1)] Demo.with_ann "users" Demo.field_required
           (world Demo.with_ann) eq_refl eq_refl eq_refl).
Defined.

(** The first page, with the defaults of [CommonQueryParams]. *)
Example default_page :
  let p := CommonQueryParams_init None None None in
  (q p, skip p, limit p) = (None, 0, 10) /\
  fst (get_multi Demo.users None (skip p) (limit p) Demo.with_ann)
  = Ok [0%nat].
Proof. split; reflexivity. Qed.
